(** * Mneme role-play session: scenario builder and Syrinx session client

    A shallow embedding of
    - [lib/roleplay.ts]            ([buildScenario]),
    - [hooks/useSyrinxSession.ts]  ([connect], the four WebSocket handlers,
                                    [sendMessage], [disconnect], [clearError]),
    - [components/RolePlayModal.tsx] ([handleSubmit]),
    together with the properties of the session specification that concern
    them. *)

From Stdlib Require Import ZArith Ascii String List Bool Lia.
From Stdlib Require Import DecimalString DecimalPos DecimalZ.
From stdpp Require Import base list strings sorting gmap.
Import ListNotations.

Local Open Scope Z_scope.
Local Open Scope string_scope.
Local Open Scope list_scope.

(** ** JavaScript values used by the code *)

(** Truthiness of a string: only the empty string is falsy. *)
Definition truthy (s : string) : bool :=
  match s with
  | EmptyString => false
  | String _ _ => true
  end.

(** Truthiness of an optional string field ([undefined] is falsy). *)
Definition truthy_opt (o : option string) : bool :=
  match o with
  | Some s => truthy s
  | None => false
  end.

(** [o || d] on an optional string field. *)
Definition or_default (o : option string) (d : string) : string :=
  match o with
  | Some s => if truthy s then s else d
  | None => d
  end.

(** A JavaScript number as the builder meets it: a whole number, or [NaN]
    (the time value of an invalid [Date] and everything computed from it). *)
Inductive number : Type :=
  | NaN
  | Int (z : Z).

(** [`${n}`]: the decimal digits of a whole number, with a leading minus
    sign below zero (magnitudes under 1e21, where JavaScript prints no
    exponent). *)
Definition Number_toString (n : number) : string :=
  match n with
  | NaN => "NaN"
  | Int z => NilZero.string_of_int (Z.to_int z)
  end.

(** [n !== 1] *)
Definition neq_one (n : number) : bool :=
  match n with
  | NaN => true
  | Int z => negb (z =? 1)%Z
  end.

(** [Array.prototype.join(' ')] *)
Definition join_space (l : list string) : string := String.concat " " l.

(** ** lib/api.ts: the patient record as far as the builder reads it

    [age_years] is the age in whole years. *)

Module Reaction.
Record t : Type := mk
    { manifestation : string;
      severity : option string }.
End Reaction.

Module Allergy.
Record t : Type := mk
    { id : string;
      display_name : string;
      category : option string;
      criticality : string;
      reactions : option (list Reaction.t) }.
End Allergy.

Module Medication.
Record t : Type := mk
    { id : string;
      display_name : string;
      status : string;
      dose_quantity : option string;
      dose_unit : option string;
      frequency : option string;
      route : option string }.
End Medication.

Module Condition.
Record t : Type := mk
    { id : string;
      display_name : string;
      clinical_status : string;
      severity : option string;
      onset_date : option string }.
End Condition.

Module Patient.
Record t : Type := mk
    { given_names : list string;
      family_name : string;
      date_of_birth : string;
      sex_at_birth : option string;
      age_years : Z }.
End Patient.

Module PatientDetail.
Record t : Type := mk
    { patient : Patient.t;
      conditions : list Condition.t;
      medications : list Medication.t;
      allergies : list Allergy.t }.
End PatientDetail.

(** ** lib/roleplay.ts *)

Inductive ParentPersona : Type :=
  | anxious | calm | dismissive | demanding | confused | frustrated.

Definition persona_tag (p : ParentPersona) : string :=
  match p with
  | anxious => "anxious"
  | calm => "calm"
  | dismissive => "dismissive"
  | demanding => "demanding"
  | confused => "confused"
  | frustrated => "frustrated"
  end.

Module ScenarioPatient.
Record t : Type := mk
    { name : string;
      age : string;
      sex : string;
      allergies : list string;
      medications : list string;
      chronic_conditions : list string }.
End ScenarioPatient.

Module ScenarioParent.
Record t : Type := mk { style : string }.
End ScenarioParent.

Module SyrinxScenario.
Record t : Type := mk
    { description : string;
      patient : ScenarioPatient.t;
      parent : ScenarioParent.t;
      chief_complaint : string }.
End SyrinxScenario.

(** [1000 * 60 * 60 * 24 * 30] *)
Definition MS_PER_30_DAYS : Z := 1000 * 60 * 60 * 24 * 30.

(** [Math.floor((now.getTime() - dob.getTime()) / (1000*60*60*24*30))]: time
    values are whole milliseconds, and the floor of their quotient is
    [Z.div] (the double-precision quotient has the same floor for every
    difference below 2^53). *)
Definition months_between (now : Z) (dob : number) : number :=
  match dob with
  | NaN => NaN
  | Int t => Int ((now - t) / MS_PER_30_DAYS)
  end.

Section Builder.

  (** [new Date(s).getTime()]: the runtime's date parser, [NaN] on a string
      it does not read as a date. *)
Variable Date_getTime : string -> number.

  (** [new Date().getTime()], the wall clock at the call. *)
Variable now : Z.

Definition ageString (p : Patient.t) : string :=
    if (Patient.age_years p <? 1)%Z then
      let months := months_between now (Date_getTime (Patient.date_of_birth p)) in
      Number_toString months +:+ " month" +:+ (if neq_one months then "s" else "")
    else
      Number_toString (Int (Patient.age_years p)) +:+ " year"
        +:+ (if neq_one (Int (Patient.age_years p)) then "s" else "").

  (** [a.reactions?.[0]?.manifestation] *)
Definition first_manifestation (a : Allergy.t) : option string :=
    match Allergy.reactions a with
    | Some (r :: _) => Some (Reaction.manifestation r)
    | _ => None
    end.

Definition render_allergy (a : Allergy.t) : string :=
    match first_manifestation a with
    | Some reaction =>
        if truthy reaction
        then Allergy.display_name a +:+ " (" +:+ reaction +:+ ")"
        else Allergy.display_name a
    | None => Allergy.display_name a
    end.

Definition activeAllergies (l : list Allergy.t) : list string :=
    map render_allergy (List.filter (fun a => truthy (Allergy.display_name a)) l).

Definition render_medication (m : Medication.t) : string :=
    match Medication.dose_quantity m, Medication.frequency m with
    | Some quantity, Some freq =>
        if truthy quantity && truthy freq
        then Medication.display_name m +:+ " " +:+ quantity
               +:+ or_default (Medication.dose_unit m) "" +:+ " " +:+ freq
        else Medication.display_name m
    | _, _ => Medication.display_name m
    end.

Definition activeMedications (l : list Medication.t) : list string :=
    map render_medication
        (List.filter (fun m => String.eqb (Medication.status m) "active") l).

Definition activeConditions (l : list Condition.t) : list string :=
    map Condition.display_name
        (List.filter (fun c => String.eqb (Condition.clinical_status c) "active") l).

  (** [xs.length > 0 ? xs : [placeholder]] *)
Definition or_placeholder (xs : list string) (placeholder : string) : list string :=
    if (0 <? Z.of_nat (List.length xs))%Z then xs else [placeholder].

Definition buildScenario (patientData : PatientDetail.t)
      (chiefComplaint : string) (parentPersona : ParentPersona) : SyrinxScenario.t :=
    let patient := PatientDetail.patient patientData in
    let fullName :=
      join_space (Patient.given_names patient) +:+ " " +:+ Patient.family_name patient in
    let age := ageString patient in
    SyrinxScenario.mk
      (age +:+ " old " +:+ or_default (Patient.sex_at_birth patient) "child"
           +:+ " named " +:+ fullName +:+ " presenting with " +:+ chiefComplaint)
      (ScenarioPatient.mk
         fullName
         age
         (or_default (Patient.sex_at_birth patient) "unknown")
         (or_placeholder (activeAllergies (PatientDetail.allergies patientData)) "None known")
         (or_placeholder (activeMedications (PatientDetail.medications patientData)) "None")
         (or_placeholder (activeConditions (PatientDetail.conditions patientData)) "None"))
      (ScenarioParent.mk (persona_tag parentPersona))
      chiefComplaint.

End Builder.

(** An entry of [PARENT_PERSONAS]. *)
Module PersonaOption.
Record t : Type := mk
    { value : ParentPersona;
      label : string;
      description : string }.
End PersonaOption.

Definition PARENT_PERSONAS : list PersonaOption.t :=
  [ PersonaOption.mk anxious "Anxious First-Time Parent"
      "Worried, asks many questions, needs reassurance";
    PersonaOption.mk calm "Calm & Experienced"
      "Matter-of-fact, provides clear information";
    PersonaOption.mk dismissive "Dismissive"
      "Minimizes symptoms, may withhold information";
    PersonaOption.mk demanding "Demanding"
      "Wants immediate answers, may push for specific treatments";
    PersonaOption.mk confused "Confused"
      "Unclear about symptoms, gives inconsistent information";
    PersonaOption.mk frustrated "Frustrated with Healthcare"
      "Has had bad experiences, skeptical of recommendations" ].

(** [PARENT_PERSONAS.find(p => p.value === persona)?.description || ''];
    personas are compared as the strings they are. *)
Definition getPersonaDescription (persona : ParentPersona) : string :=
  or_default
    (PersonaOption.description <$>
       List.find (fun p => String.eqb (persona_tag (PersonaOption.value p))
                                      (persona_tag persona))
                 PARENT_PERSONAS)
    "".

(** ** hooks/useSyrinxSession.ts *)

Inductive Speaker : Type := doctor | parent.

Module ChatMessage.
Record t : Type := mk
    { id : string;
      speaker : Speaker;
      text : string;
      timestamp : Z }.
End ChatMessage.

(** An inbound record after [JSON.parse]. *)
Module SyrinxMessage.
Record t : Type := mk
    { type : string;
      text : option string;
      error : option string }.
End SyrinxMessage.

(** The two records the hook passes to [ws.send] (before [JSON.stringify]). *)
Inductive Outbound : Type :=
  | InitRecord (role : string) (scenario : SyrinxScenario.t)
  | TurnRecord (text : string).

Inductive ReadyState : Type := CONNECTING | OPEN | CLOSING | CLOSED.

Definition ReadyState_eqb (a b : ReadyState) : bool :=
  match a, b with
  | CONNECTING, CONNECTING | OPEN, OPEN | CLOSING, CLOSING | CLOSED, CLOSED => true
  | _, _ => false
  end.

(** A [WebSocket] object: its [readyState], the frames handed to [send]
    while it was open, and the [scenario] its [onopen] closure captured. *)
Module WebSocket.
Record t : Type := mk
    { readyState : ReadyState;
      sent : list Outbound;
      scenario : SyrinxScenario.t }.
End WebSocket.

(** The hook's five [useState] cells and two [useRef] cells, and the
    [WebSocket] objects created so far; a socket is named by its index in
    [sockets], and [wsRef] holds such an index or [null]. Calls and handlers
    run one at a time, each on the state the one before it left. *)
Record Session : Type := mkSession
  { messages : list ChatMessage.t;
    isConnected : bool;
    isConnecting : bool;
    isWaitingForResponse : bool;
    error : option string;
    wsRef : option nat;
    messageIdRef : Z;
    sockets : list WebSocket.t }.

(** The state of a freshly mounted hook. *)
Definition initial : Session :=
  mkSession [] false false false None None 0 [].

Definition setMessages (v : list ChatMessage.t) (s : Session) : Session :=
  mkSession v (isConnected s) (isConnecting s) (isWaitingForResponse s)
            (error s) (wsRef s) (messageIdRef s) (sockets s).

Definition setIsConnected (v : bool) (s : Session) : Session :=
  mkSession (messages s) v (isConnecting s) (isWaitingForResponse s)
            (error s) (wsRef s) (messageIdRef s) (sockets s).

Definition setIsConnecting (v : bool) (s : Session) : Session :=
  mkSession (messages s) (isConnected s) v (isWaitingForResponse s)
            (error s) (wsRef s) (messageIdRef s) (sockets s).

Definition setIsWaitingForResponse (v : bool) (s : Session) : Session :=
  mkSession (messages s) (isConnected s) (isConnecting s) v
            (error s) (wsRef s) (messageIdRef s) (sockets s).

Definition setError (v : option string) (s : Session) : Session :=
  mkSession (messages s) (isConnected s) (isConnecting s) (isWaitingForResponse s)
            v (wsRef s) (messageIdRef s) (sockets s).

Definition set_wsRef (v : option nat) (s : Session) : Session :=
  mkSession (messages s) (isConnected s) (isConnecting s) (isWaitingForResponse s)
            (error s) v (messageIdRef s) (sockets s).

Definition set_messageIdRef (v : Z) (s : Session) : Session :=
  mkSession (messages s) (isConnected s) (isConnecting s) (isWaitingForResponse s)
            (error s) (wsRef s) v (sockets s).

Definition set_sockets (v : list WebSocket.t) (s : Session) : Session :=
  mkSession (messages s) (isConnected s) (isConnecting s) (isWaitingForResponse s)
            (error s) (wsRef s) (messageIdRef s) v.

(** A call returns, or throws; either way the state it reached stays. *)
Inductive Outcome : Type :=
  | Returned (s : Session)
  | Thrown (s : Session).

Definition state_of (o : Outcome) : Session :=
  match o with
  | Returned s | Thrown s => s
  end.

(** *** The WebSocket interface of the browser *)

(** [new WebSocket(url)]: a new object in state [CONNECTING]. *)
Definition new_WebSocket (scenario : SyrinxScenario.t) (s : Session) : nat * Session :=
  (List.length (sockets s),
   set_sockets (sockets s ++ [WebSocket.mk CONNECTING [] scenario]) s).

(** [ws.readyState], [None] for [wsRef.current] being [null]. *)
Definition readyState_of (ws : option nat) (s : Session) : option ReadyState :=
  match ws with
  | Some h => WebSocket.readyState <$> sockets s !! h
  | None => None
  end.

(** [ws.send(data)]: throws [InvalidStateError] while connecting, queues the
    frame when open, drops it once closing or closed. *)
Definition ws_send (ws : nat) (data : Outbound) (s : Session) : Outcome :=
  match sockets s !! ws with
  | Some w =>
      match WebSocket.readyState w with
      | CONNECTING => Thrown s
      | OPEN =>
          Returned (set_sockets
            (<[ws := WebSocket.mk OPEN (WebSocket.sent w ++ [data]) (WebSocket.scenario w)]>
               (sockets s)) s)
      | CLOSING | CLOSED => Returned s
      end
  | None => Thrown s
  end.

(** [ws.close()]: nothing once closing or closed, otherwise the socket
    starts closing. *)
Definition ws_close (ws : nat) (s : Session) : Session :=
  match sockets s !! ws with
  | Some w =>
      match WebSocket.readyState w with
      | CONNECTING | OPEN =>
          set_sockets
            (<[ws := WebSocket.mk CLOSING (WebSocket.sent w) (WebSocket.scenario w)]>
               (sockets s)) s
      | CLOSING | CLOSED => s
      end
  | None => s
  end.

(** The browser changing [readyState] before it fires [open] or [close]. *)
Definition set_readyState (ws : nat) (r : ReadyState) (s : Session) : Session :=
  match sockets s !! ws with
  | Some w =>
      set_sockets
        (<[ws := WebSocket.mk r (WebSocket.sent w) (WebSocket.scenario w)]> (sockets s)) s
  | None => s
  end.

(** *** The hook *)

(** [generateId]: bumps [messageIdRef] and returns [`msg-${n}`]. *)
Definition generateId (s : Session) : string * Session :=
  let n := (messageIdRef s + 1)%Z in
  ("msg-" +:+ Number_toString (Int n), set_messageIdRef n s).

(** [wsRef.current?.readyState === WebSocket.OPEN] *)
Definition transport_open (s : Session) : bool :=
  match readyState_of (wsRef s) s with
  | Some r => ReadyState_eqb r OPEN
  | None => false
  end.

Definition connect (scenario : SyrinxScenario.t) (s : Session) : Session :=
  if transport_open s then s
  else
    let s := setIsConnecting true s in
    let s := setError None s in
    let s := setMessages [] s in
    let '(ws, s) := new_WebSocket scenario s in
    set_wsRef (Some ws) s.

(** [ws.onopen], for the socket [ws] of the closure. *)
Definition onopen (ws : nat) (s : Session) : Outcome :=
  let s := setIsConnecting false s in
  let s := setIsConnected true s in
  let s := setIsWaitingForResponse true s in
  match sockets s !! ws with
  | Some w => ws_send ws (InitRecord "doctor" (WebSocket.scenario w)) s
  | None => Thrown s
  end.

(** [ws.onmessage]; [data] is the result of [JSON.parse(event.data)], [None]
    when it throws (the handler catches and logs). *)
Definition onmessage (now : Z) (data : option SyrinxMessage.t) (s : Session) : Session :=
  match data with
  | None => s
  | Some d =>
      if String.eqb (SyrinxMessage.type d) "message" && truthy_opt (SyrinxMessage.text d)
      then
        let messageText := or_default (SyrinxMessage.text d) "" in
        let '(id, s) := generateId s in
        let s := setMessages (messages s ++ [ChatMessage.mk id parent messageText now]) s in
        setIsWaitingForResponse false s
      else if String.eqb (SyrinxMessage.type d) "error"
      then
        let s := setError (Some (or_default (SyrinxMessage.error d) "An error occurred")) s in
        setIsWaitingForResponse false s
      else if String.eqb (SyrinxMessage.type d) "end"
      then setIsConnected false s
      else s
  end.

Definition CONNECTION_ERROR : string :=
  "Connection error. Is Syrinx running on port 8003?".

(** [ws.onerror] *)
Definition onerror (s : Session) : Session :=
  let s := setError (Some CONNECTION_ERROR) s in
  let s := setIsConnecting false s in
  let s := setIsConnected false s in
  setIsWaitingForResponse false s.

(** [ws.onclose] *)
Definition onclose (s : Session) : Session :=
  let s := setIsConnected false s in
  let s := setIsConnecting false s in
  setIsWaitingForResponse false s.

Definition NOT_CONNECTED : string := "Not connected to Syrinx".

Definition sendMessage (now : Z) (text : string) (s : Session) : Outcome :=
  match wsRef s with
  | Some ws =>
      if transport_open s then
        let '(id, s) := generateId s in
        let s := setMessages (messages s ++ [ChatMessage.mk id doctor text now]) s in
        let s := setIsWaitingForResponse true s in
        ws_send ws (TurnRecord text) s
      else Returned (setError (Some NOT_CONNECTED) s)
  | None => Returned (setError (Some NOT_CONNECTED) s)
  end.

Definition disconnect (s : Session) : Session :=
  let s :=
    match wsRef s with
    | Some ws => set_wsRef None (ws_close ws s)
    | None => s
    end in
  let s := setIsConnected false s in
  setIsWaitingForResponse false s.

Definition clearError (s : Session) : Session := setError None s.

(** *** One ordered stream of calls and transport events *)

Inductive Event : Type :=
  | Connect (scenario : SyrinxScenario.t)
  | SendMessage (now : Z) (text : string)
  | Disconnect
  | ClearError
  | WsOpen (ws : nat)
  | WsMessage (ws : nat) (now : Z) (data : option SyrinxMessage.t)
  | WsError (ws : nat)
  | WsClose (ws : nat).

(** A transport event reaches the handlers of a socket that exists; [open]
    comes to a connecting socket and leaves it open, [message] comes to an
    open socket, [close] leaves the socket closed. *)
Definition step (e : Event) (s : Session) : Session :=
  match e with
  | Connect scenario => connect scenario s
  | SendMessage now text => state_of (sendMessage now text s)
  | Disconnect => disconnect s
  | ClearError => clearError s
  | WsOpen ws =>
      match readyState_of (Some ws) s with
      | Some CONNECTING => state_of (onopen ws (set_readyState ws OPEN s))
      | _ => s
      end
  | WsMessage ws now data =>
      match readyState_of (Some ws) s with
      | Some OPEN => onmessage now data s
      | _ => s
      end
  | WsError ws =>
      match readyState_of (Some ws) s with
      | Some _ => onerror s
      | None => s
      end
  | WsClose ws =>
      match readyState_of (Some ws) s with
      | Some CLOSED | None => s
      | Some _ => onclose (set_readyState ws CLOSED s)
      end
  end.

Definition run (es : list Event) (s : Session) : Session :=
  fold_left (fun s e => step e s) es s.

(** ** components/RolePlayModal.tsx *)

(** The modal: the hook's state and the text of the input box. *)
Record Modal : Type := mkModal
  { session : Session;
    inputValue : string }.

Section ModalHandlers.

  (** [String.prototype.trim] *)
Variable trim : string -> string.

Definition handleSubmit (now : Z) (m : Modal) : Modal :=
    if negb (truthy (trim (inputValue m)))
       || isWaitingForResponse (session m)
       || negb (isConnected (session m))
    then m
    else
      match sendMessage now (trim (inputValue m)) (session m) with
      | Returned s => mkModal s ""
      | Thrown s => mkModal s (inputValue m)
      end.

  (** Successive submissions, each with the text typed before it. *)
Fixpoint submit_all (turns : list (Z * string)) (m : Modal) : Modal :=
    match turns with
    | [] => m
    | (now, typed) :: rest =>
        submit_all rest (handleSubmit now (mkModal (session m) typed))
    end.

End ModalHandlers.

(** ** components/RolePlaySetupModal.tsx and pages/PatientDetail.tsx *)

(** The page's state around the role play: whether the setup dialog shows,
    and the configuration of the role play that runs, if one does. *)
Record Page : Type := mkPage
  { showRolePlaySetup : bool;
    rolePlayConfig : option (string * ParentPersona) }.

(** The setup dialog's own state. *)
Record Setup : Type := mkSetup
  { chiefComplaint : string;
    parentPersona : ParentPersona }.

(** [useState('')] and [useState('anxious')] *)
Definition setup_initial : Setup := mkSetup "" anxious.

(** The [onStart] the page hands to the setup dialog. *)
Definition onStart (complaint : string) (persona : ParentPersona) (p : Page) : Page :=
  mkPage false (Some (complaint, persona)).

Section RolePlaySetup.

(** [String.prototype.trim] *)
Variable trim : string -> string.

(** [handleSubmit] of the setup dialog. *)
Definition setup_handleSubmit (f : Setup) (p : Page) : Page :=
  if negb (truthy (trim (chiefComplaint f))) then p
  else onStart (trim (chiefComplaint f)) (parentPersona f) p.

End RolePlaySetup.

Section RolePlayMount.

Variable Date_getTime : string -> number.
Variable now : Z.

(** The mount effect of [RolePlayModal]: build the scenario and [connect],
    on a freshly mounted hook and an empty input box. *)
Definition mount_RolePlayModal (patientData : PatientDetail.t)
    (complaint : string) (persona : ParentPersona) : Modal :=
  mkModal (connect (buildScenario Date_getTime now patientData complaint persona) initial) "".

(** The page renders the role-play modal when it has a configuration. *)
Definition render_RolePlayModal (patientData : PatientDetail.t) (p : Page) : option Modal :=
  match rolePlayConfig p with
  | Some (complaint, persona) => Some (mount_RolePlayModal patientData complaint persona)
  | None => None
  end.

End RolePlayMount.

(** ** pages/Messages.tsx: the inbox *)

Module Message.
Record t : Type := mk
    { id : string;
      patient_id : string;
      sent_datetime : string;
      sender_name : string;
      subject : option string;
      message_body : string;
      reply_body : option string;
      replier_name : option string;
      replier_role : option string;
      category : option string;
      is_read : bool;
      patient_name : option string }.
End Message.

(** The inbox page's message list and selection. *)
Module Inbox.
Record t : Type := mk
    { messages : list Message.t;
      selectedMessage : option Message.t }.
End Inbox.

(** [{ ...m, is_read: true }] *)
Definition with_is_read (m : Message.t) : Message.t :=
  Message.mk (Message.id m) (Message.patient_id m) (Message.sent_datetime m)
             (Message.sender_name m) (Message.subject m) (Message.message_body m)
             (Message.reply_body m) (Message.replier_name m) (Message.replier_role m)
             (Message.category m) true (Message.patient_name m).

(** [handleSelectMessage]; [marked] tells whether the [markMessageRead]
    request succeeded (a failure is caught and logged). *)
Definition handleSelectMessage (marked : bool) (msg : Message.t) (st : Inbox.t) : Inbox.t :=
  let st := Inbox.mk (Inbox.messages st) (Some msg) in
  if negb (Message.is_read msg) then
    if marked then
      Inbox.mk (map (fun m => if String.eqb (Message.id m) (Message.id msg)
                             then with_is_read m else m)
                   (Inbox.messages st))
              (Inbox.selectedMessage st)
    else st
  else st.

(** The messages still unread. *)
Definition unread (l : list Message.t) : list Message.t :=
  List.filter (fun m => negb (Message.is_read m)) l.

(** ** pages/Import.tsx *)

(** A thrown value: an [Error] with its message, or anything else. *)
Definition thrown : Type := option string.

(** [err instanceof Error ? err.message : 'Import failed'] *)
Definition thrown_message (err : thrown) : string :=
  match err with
  | Some message => message
  | None => "Import failed"
  end.

(** A dropped file: its name, and what [file.text()] resolves to or rejects
    with. *)
Module File.
Record t : Type := mk
    { name : string;
      text : thrown + string }.
End File.

(** [ImportResult]; [details] is an object, keys to values. *)
Module ImportResult.
Record t : Type := mk
    { success : bool;
      import_id : option string;
      patient_count : Z;
      details : option (gmap string string);
      errors : list string }.
End ImportResult.

(** The import page's state. *)
Module ImportPage.
Record t : Type := mk
    { isDragging : bool;
      importing : bool;
      results : list ImportResult.t;
      error : option string }.
End ImportPage.

(** [String.prototype.endsWith] *)
Fixpoint endsWith (s suffix : string) : bool :=
  String.eqb s suffix ||
  match s with
  | String _ rest => endsWith rest suffix
  | EmptyString => false
  end.

(** [{ ...result, details: { ...result.details, filename, format } }] *)
Definition with_details (result : ImportResult.t) (filename format : string)
    : ImportResult.t :=
  ImportResult.mk
    (ImportResult.success result) (ImportResult.import_id result)
    (ImportResult.patient_count result)
    (Some (<["format" := format]>
             (<["filename" := filename]> (default ∅ (ImportResult.details result)))))
    (ImportResult.errors result).

Section ImportHandlers.

(** The three upload requests of [lib/api], by file name and content: the
    server's answer, or what the request throws. *)
Variable importCCDA : string -> string -> thrown + ImportResult.t.
Variable importFhirBundle : string -> string -> thrown + ImportResult.t.
Variable importOreadFile : string -> string -> thrown + ImportResult.t.

(** [JSON.parse(text).resourceType]: the field if the text parses to a value
    that has it, [None] if it parses to a value without it, and what is
    thrown otherwise. *)
Variable JSON_resourceType : string -> thrown + option string.

(** The [try] block of the loop body, for a file that passed the check of
    its extension. *)
Definition try_import (file : File.t) : thrown + ImportResult.t :=
  match File.text file with
  | inl err => inl err
  | inr text =>
      if endsWith (File.name file) ".xml" then
        match importCCDA (File.name file) text with
        | inl err => inl err
        | inr result => inr (with_details result (File.name file) "C-CDA 2.1")
        end
      else
        match JSON_resourceType text with
        | inl err => inl err
        | inr resourceType =>
            let isFhirBundle :=
              match resourceType with
              | Some t => String.eqb t "Bundle"
              | None => false
              end in
            match (if isFhirBundle then importFhirBundle (File.name file) text
                   else importOreadFile (File.name file) text) with
            | inl err => inl err
            | inr result =>
                inr (with_details result (File.name file)
                                  (if isFhirBundle then "FHIR R5" else "Oread JSON"))
            end
        end
  end.

(** The loop body: the result pushed for one file. *)
Definition import_file (file : File.t) : ImportResult.t :=
  let isJson := endsWith (File.name file) ".json" in
  let isXml := endsWith (File.name file) ".xml" in
  if negb isJson && negb isXml then
    ImportResult.mk false None 0 None
                    [File.name file +:+ ": Must be a JSON or XML file"]
  else
    match try_import file with
    | inr result => result
    | inl err =>
        ImportResult.mk false None 0
                        (Some {["filename" := File.name file]})
                        [thrown_message err]
    end.

(** [handleFiles], from its first line to its last. *)
Definition handleFiles (files : list File.t) (st : ImportPage.t) : ImportPage.t :=
  ImportPage.mk (ImportPage.isDragging st) false
                (map import_file files ++ ImportPage.results st) None.

(** [handleFileSelect] *)
Definition handleFileSelect (files : list File.t) (st : ImportPage.t) : ImportPage.t :=
  if (0 <? Z.of_nat (length files))%Z then handleFiles files st else st.

End ImportHandlers.

(** A [trim] for the blanks of ASCII, to run the modal on examples. *)
Definition is_blank (c : ascii) : bool :=
  let n := N_of_ascii c in
  ((9 <=? n) && (n <=? 13) || (n =? 32))%N.

Fixpoint trim_start (s : string) : string :=
  match s with
  | String c rest => if is_blank c then trim_start rest else s
  | EmptyString => EmptyString
  end.

Definition trim_ascii (s : string) : string :=
  String.rev (trim_start (String.rev (trim_start s))).

(** ** Sample inputs *)

Definition demo_scenario : SyrinxScenario.t :=
  SyrinxScenario.mk
    "4 years old female named Mia Stone presenting with fever"
    (ScenarioPatient.mk "Mia Stone" "4 years" "female" ["None known"] ["None"] ["Asthma"])
    (ScenarioParent.mk "calm")
    "fever".

(** After [connect] and the transport's [open]: connected, and waiting for
    the peer's first turn. *)
Definition awaiting_first_reply : Session :=
  run [Connect demo_scenario; WsOpen 0%nat] initial.

(** The peer has greeted and then ended the session; the socket is still open. *)
Definition after_end : Session :=
  run [WsMessage 0%nat 10 (Some (SyrinxMessage.mk "message" (Some "Hello doctor") None));
       WsMessage 0%nat 20 (Some (SyrinxMessage.mk "end" None None))]
      awaiting_first_reply.

(** The specification's measure of an infant's age: whole days from [t] to
    [now], both in milliseconds since the epoch. *)
Definition elapsed_days (now t : Z) : Z := (now - t) / (1000 * 60 * 60 * 24).

(** A date parser for the two dates of the sample patients. *)
Definition sample_getTime (s : string) : number :=
  if String.eqb s "2024-01-01" then Int 1704067200000
  else if String.eqb s "2020-03-15" then Int 1584230400000
  else NaN.

(** 2024-03-01T00:00:00Z *)
Definition sample_now : Z := 1709251200000.

Definition infant : PatientDetail.t :=
  PatientDetail.mk
    (Patient.mk ["Ada"] "Byron" "2024-01-01" None 0)
    [Condition.mk "c1" "Eczema" "resolved" None None]
    [Medication.mk "m1" "Amoxicillin" "active" (Some "5") (Some "ml") (Some "twice daily") None;
     Medication.mk "m2" "Ibuprofen" "stopped" None None None None]
    [Allergy.mk "a1" "Peanut" None "high" (Some [Reaction.mk "hives" None]);
     Allergy.mk "a2" "" None "low" None;
     Allergy.mk "a3" "Latex" None "low" (Some [])].

Definition toddler : PatientDetail.t :=
  PatientDetail.mk
    (Patient.mk ["Mia"] "Stone" "2020-03-15" (Some "female") 3)
    [Condition.mk "c1" "Asthma" "active" None None]
    []
    [].

(** A modal mounted, unmounted and mounted again: socket 0 was closed while
    connecting, socket 1 is open. *)
Definition remounted : Session :=
  run [Connect demo_scenario; Disconnect; Connect demo_scenario; WsOpen 1%nat] initial.

(** [connect] called twice before the transport opened: socket 0 is still
    connecting, and the handle is on socket 1. *)
Definition connected_twice : Session :=
  run [Connect demo_scenario; Connect demo_scenario] initial.

(** After two [connect] calls socket 0 opened and the peer greeted on it: the
    session shows connected and idle, while the handle is on socket 1, still
    connecting. *)
Definition greeted_on_old_socket : Session :=
  run [WsOpen 0%nat;
       WsMessage 0%nat 10 (Some (SyrinxMessage.mk "message" (Some "Hello doctor") None))]
      connected_twice.

(** The hook's own unmount cleanup: closes the socket of [wsRef], if any. *)
Definition unmount (s : Session) : Session :=
  match wsRef s with
  | Some ws => ws_close ws s
  | None => s
  end.

Definition refill_request : Message.t :=
  Message.mk "msg-a" "p1" "2024-03-01T09:00:00" "Dana Stone" (Some "Refill")
             "Please refill the inhaler." None None None (Some "refill-request") false
             (Some "Mia Stone").

Definition lab_question : Message.t :=
  Message.mk "msg-b" "p2" "2024-03-01T10:00:00" "Lee Byron" None
             "What do the results mean?" None None None (Some "lab-result-question") false
             None.

(** A server that accepts every upload with one patient, and a JSON reader
    that finds a FHIR bundle in every text. *)
Definition accept_all (name text : string) : thrown + ImportResult.t :=
  inr (ImportResult.mk true (Some "imp-1") 1 None []).

Definition always_bundle (text : string) : thrown + option string :=
  inr (Some "Bundle").

(** ** The modal over time *)

(** What happens to a mounted modal: a call of the hook or an event of the
    transport, or a submission of the form with some text typed in. *)
Inductive ModalAction : Type :=
  | Happens (e : Event)
  | Submits (now : Z) (typed : string).

Section ModalRuns.

(** [String.prototype.trim] *)
Variable trim : string -> string.

Definition modal_step (a : ModalAction) (m : Modal) : Modal :=
  match a with
  | Happens e => mkModal (step e (session m)) (inputValue m)
  | Submits now typed => handleSubmit trim now (mkModal (session m) typed)
  end.

Definition modal_run (acts : list ModalAction) (m : Modal) : Modal :=
  fold_left (fun m a => modal_step a m) acts m.

End ModalRuns.

(** The calls and events of a run, its submissions left out. *)
Fixpoint events_of (acts : list ModalAction) : list Event :=
  match acts with
  | [] => []
  | Happens e :: rest => e :: events_of rest
  | Submits _ _ :: rest => events_of rest
  end.

(** [a] is the [open] event of some socket. *)
Definition is_open_event (a : ModalAction) : bool :=
  match a with
  | Happens (WsOpen _) => true
  | _ => false
  end.

(** The calls and events whose code puts the waiting flag down: a
    [disconnect], a transport error, a close, and an inbound message with a
    text or error record. *)
Definition clears_waiting (e : Event) : bool :=
  match e with
  | Disconnect | WsError _ | WsClose _ => true
  | WsMessage _ _ (Some d) =>
      String.eqb (SyrinxMessage.type d) "message" && truthy_opt (SyrinxMessage.text d)
      || String.eqb (SyrinxMessage.type d) "error"
  | _ => false
  end.

Definition may_clear_waiting (a : ModalAction) : bool :=
  match a with
  | Happens e => clears_waiting e
  | Submits _ _ => false
  end.

(** [connect] twice, socket 1 opens, the peer greets and ends the session;
    then socket 0, left behind, opens late and the peer greets on it. *)
Definition reopened_by_old_socket : Session :=
  run [Connect demo_scenario; Connect demo_scenario; WsOpen 1%nat;
       WsMessage 1%nat 10 (Some (SyrinxMessage.mk "message" (Some "Hello doctor") None));
       WsMessage 1%nat 20 (Some (SyrinxMessage.mk "end" None None));
       WsOpen 0%nat;
       WsMessage 0%nat 30 (Some (SyrinxMessage.mk "message" (Some "Hello doctor") None))]
      initial.

(** What can become of a socket while the handle is null: its frames stay as
    they are, or, if it was still connecting, it opens and sends its init
    record, once. *)
Definition at_most_init_added (w w' : WebSocket.t) : Prop :=
  WebSocket.scenario w' = WebSocket.scenario w /\
  ((WebSocket.sent w' = WebSocket.sent w /\
    (WebSocket.readyState w' = CONNECTING -> WebSocket.readyState w = CONNECTING)) \/
   (WebSocket.readyState w = CONNECTING /\
    WebSocket.sent w' = WebSocket.sent w ++ [InitRecord "doctor" (WebSocket.scenario w)] /\
    WebSocket.readyState w' <> CONNECTING)).

(** ** Vocabulary of the session invariants *)

(** [`msg-${n}`], the identifier [generateId] makes from the counter [n]. *)
Definition msg_id (n : Z) : string := "msg-" +:+ Number_toString (Int n).

(** What one call or transport event can do to a socket: hand it a turn
    record, open it (with the init record), start closing it, close it. *)
Inductive socket_step (w : WebSocket.t) : WebSocket.t -> Prop :=
  | socket_turn (text : string) :
      WebSocket.readyState w = OPEN ->
      socket_step w (WebSocket.mk OPEN (WebSocket.sent w ++ [TurnRecord text])
                                  (WebSocket.scenario w))
  | socket_opens :
      WebSocket.readyState w = CONNECTING ->
      socket_step w (WebSocket.mk OPEN
                       (WebSocket.sent w ++ [InitRecord "doctor" (WebSocket.scenario w)])
                       (WebSocket.scenario w))
  | socket_closing :
      WebSocket.readyState w = CONNECTING \/ WebSocket.readyState w = OPEN ->
      socket_step w (WebSocket.mk CLOSING (WebSocket.sent w) (WebSocket.scenario w))
  | socket_closed :
      WebSocket.readyState w <> CLOSED ->
      socket_step w (WebSocket.mk CLOSED (WebSocket.sent w) (WebSocket.scenario w)).

(** The order of the ready states in a socket's life. *)
Definition ReadyState_rank (r : ReadyState) : nat :=
  match r with
  | CONNECTING => 0
  | OPEN => 1
  | CLOSING => 2
  | CLOSED => 3
  end.

(** The frames of a socket in protocol order: nothing before it opens, then
    one init record with the scenario of its [connect], then turn records. *)
Definition socket_in_protocol (w : WebSocket.t) : Prop :=
  (WebSocket.sent w = [] /\ WebSocket.readyState w <> OPEN) \/
  (exists turns,
     WebSocket.sent w = InitRecord "doctor" (WebSocket.scenario w) :: map TurnRecord turns /\
     WebSocket.readyState w <> CONNECTING).

(** The transcript's identifiers are [msg-n] for increasing values [n] of the
    counter, none above its present value. *)
Definition ids_increasing (s : Session) : Prop :=
  (0 <= messageIdRef s)%Z /\
  exists ns,
    map ChatMessage.id (messages s) = map msg_id ns /\
    StronglySorted Z.lt ns /\
    Forall (fun n => (1 <= n <= messageIdRef s)%Z) ns.

(** [e] is a [connect] call. *)
Definition is_connect (e : Event) : bool :=
  match e with
  | Connect _ => true
  | _ => false
  end.

(** The calls of the hook's interface, as against the transport's events. *)
Definition is_call (e : Event) : bool :=
  match e with
  | Connect _ | SendMessage _ _ | Disconnect | ClearError => true
  | WsOpen _ | WsMessage _ _ _ | WsError _ | WsClose _ => false
  end.

(** ** Properties of the session client *)

Lemma transport_open_true (s : Session) :
  transport_open s = true <->
  exists ws w, wsRef s = Some ws /\ sockets s !! ws = Some w
               /\ WebSocket.readyState w = OPEN.
Proof.
  unfold transport_open, readyState_of. split.
  - destruct (wsRef s) as [ws|]; [|discriminate].
    destruct (sockets s !! ws) as [w|] eqn:Hw; [|discriminate].
    cbn. destruct (WebSocket.readyState w) eqn:Hr; try discriminate.
    intros _. exists ws, w. auto.
  - intros (ws & w & -> & -> & Hr). cbn. now rewrite Hr.
Qed.

Lemma transport_open_false (s : Session) :
  transport_open s = false <->
  (wsRef s = None \/ readyState_of (wsRef s) s <> Some OPEN).
Proof.
  unfold transport_open. split.
  - intros H. right. destruct (readyState_of (wsRef s) s) as [[]|]; cbn in H; congruence.
  - intros [H|H].
    + now rewrite H.
    + destruct (readyState_of (wsRef s) s) as [[]|]; cbn; congruence.
Qed.

(** With the transport open, [sendMessage] echoes the turn into the
    transcript, raises the waiting flag and hands one turn record to the
    socket; no flag of the session is read on the way. *)
Lemma sendMessage_open (now : Z) (text : string) (s : Session) (ws : nat) (w : WebSocket.t) :
  wsRef s = Some ws ->
  sockets s !! ws = Some w ->
  WebSocket.readyState w = OPEN ->
  sendMessage now text s =
    Returned
      (mkSession
         (messages s ++
            [ChatMessage.mk ("msg-" +:+ Number_toString (Int (messageIdRef s + 1)))
                            doctor text now])
         (isConnected s) (isConnecting s) true (error s) (Some ws)
         (messageIdRef s + 1)
         (<[ws := WebSocket.mk OPEN (WebSocket.sent w ++ [TurnRecord text])
                               (WebSocket.scenario w)]> (sockets s))).
Proof.
  intros Href Hw Hr. unfold sendMessage. rewrite Href.
  assert (Hopen : transport_open s = true).
  { apply transport_open_true. eauto. }
  rewrite Hopen. destruct s; cbn in *. subst. unfold ws_send; cbn.
  rewrite Hw, Hr. reflexivity.
Qed.

(** [sendMessage] never throws: it reaches [ws.send] only on an open socket. *)
Lemma sendMessage_returns (now : Z) (text : string) (s : Session) :
  exists s', sendMessage now text s = Returned s'.
Proof.
  destruct (transport_open s) eqn:Hopen.
  - apply transport_open_true in Hopen as (ws & w & Href & Hw & Hr).
    eexists. eapply sendMessage_open; eauto.
  - unfold sendMessage. rewrite Hopen. destruct (wsRef s); eauto.
Qed.

(** The [open] event never makes [onopen] throw: the socket is open by then. *)
Lemma onopen_returns (ws : nat) (s : Session) (w : WebSocket.t) :
  sockets s !! ws = Some w ->
  exists s', onopen ws (set_readyState ws OPEN s) = Returned s'.
Proof.
  intros Hw. unfold onopen, set_readyState. rewrite Hw. destruct s; cbn in *.
  assert (Hlt : (ws < length sockets0)%nat) by (eapply lookup_lt_Some; eauto).
  rewrite list_lookup_insert_eq by exact Hlt.
  unfold ws_send; cbn. rewrite list_lookup_insert_eq by exact Hlt. cbn. eauto.
Qed.

(** *** Sending a turn *)

(** C1, as stated, fails: in [awaiting_first_reply] the waiting flag is up
    and the socket is open, and [sendMessage] still appends the turn to the
    transcript and hands a turn record to the socket. *)
Lemma sendMessage_ignores_waiting :
  isWaitingForResponse awaiting_first_reply = true /\
  messages (state_of (sendMessage 5 "Hello" awaiting_first_reply))
    = messages awaiting_first_reply ++ [ChatMessage.mk "msg-1" doctor "Hello" 5] /\
  WebSocket.sent <$> sockets (state_of (sendMessage 5 "Hello" awaiting_first_reply)) !! 0%nat
    = Some [InitRecord "doctor" demo_scenario; TurnRecord "Hello"] /\
  ~ (messages (state_of (sendMessage 5 "Hello" awaiting_first_reply))
       = messages awaiting_first_reply /\
     sockets (state_of (sendMessage 5 "Hello" awaiting_first_reply))
       = sockets awaiting_first_reply).
Proof.
  repeat split; try reflexivity.
  intros [Hm _]. vm_compute in Hm. discriminate.
Qed.

(** C1, amended: the guard on the waiting flag is the modal's. While the
    flag is up, [handleSubmit] leaves the whole state as it is (nothing is
    appended, nothing is sent), whatever was typed. [sendMessage] itself
    does not read the flag: with the transport open it appends one doctor
    entry and sends one turn record. *)
Theorem waiting_guard_is_in_handleSubmit
    (trim : string -> string) (now : Z) (m : Modal) :
  isWaitingForResponse (session m) = true ->
  handleSubmit trim now m = m /\
  forall text ws w,
    wsRef (session m) = Some ws ->
    sockets (session m) !! ws = Some w ->
    WebSocket.readyState w = OPEN ->
    exists s',
      sendMessage now text (session m) = Returned s' /\
      messages s' = messages (session m) ++
        [ChatMessage.mk ("msg-" +:+ Number_toString (Int (messageIdRef (session m) + 1)))
                        doctor text now] /\
      sockets s' = <[ws := WebSocket.mk OPEN (WebSocket.sent w ++ [TurnRecord text])
                                        (WebSocket.scenario w)]> (sockets (session m)).
Proof.
  intros Hwait. split.
  - unfold handleSubmit. rewrite Hwait. now rewrite orb_true_r.
  - intros text ws w Href Hw Hr. eexists. split.
    + eapply sendMessage_open; eauto.
    + split; reflexivity.
Qed.

Lemma waiting_guard_is_in_handleSubmit_witness :
  isWaitingForResponse (session (mkModal awaiting_first_reply " Hello ")) = true /\
  handleSubmit trim_ascii 5 (mkModal awaiting_first_reply " Hello ")
    = mkModal awaiting_first_reply " Hello " /\
  exists s',
    sendMessage 5 "Hello" awaiting_first_reply = Returned s' /\
    messages s' = [ChatMessage.mk "msg-1" doctor "Hello" 5].
Proof.
  split; [reflexivity|].
  destruct (waiting_guard_is_in_handleSubmit trim_ascii 5
              (mkModal awaiting_first_reply " Hello ") eq_refl) as [Hnop Hsend].
  split; [exact Hnop|].
  destruct (Hsend "Hello" 0%nat
              (WebSocket.mk OPEN [InitRecord "doctor" demo_scenario] demo_scenario)
              eq_refl eq_refl eq_refl) as (s' & Hret & Hmsgs & _).
  exists s'. split; [exact Hret|exact Hmsgs].
Defined.

(** C10: without a transport, or with one that is not open, [sendMessage]
    returns with the error set to "Not connected to Syrinx"; the
    transcript, the waiting flag and everything else stay as they were. *)
Theorem sendMessage_not_connected (now : Z) (text : string) (s : Session) :
  wsRef s = None \/ readyState_of (wsRef s) s <> Some OPEN ->
  exists s',
    sendMessage now text s = Returned s' /\
    error s' = Some "Not connected to Syrinx" /\
    messages s' = messages s /\
    isWaitingForResponse s' = isWaitingForResponse s /\
    isConnected s' = isConnected s /\
    isConnecting s' = isConnecting s /\
    wsRef s' = wsRef s /\
    messageIdRef s' = messageIdRef s /\
    sockets s' = sockets s.
Proof.
  intros Hclosed. apply transport_open_false in Hclosed.
  exists (setError (Some NOT_CONNECTED) s). split.
  - unfold sendMessage. rewrite Hclosed. now destruct (wsRef s).
  - destruct s; repeat split.
Qed.

Lemma sendMessage_not_connected_witness :
  exists s',
    sendMessage 5 "Hello" initial = Returned s' /\
    error s' = Some "Not connected to Syrinx" /\
    messages s' = messages initial /\
    isWaitingForResponse s' = isWaitingForResponse initial /\
    isConnected s' = isConnected initial /\
    isConnecting s' = isConnecting initial /\
    wsRef s' = wsRef initial /\
    messageIdRef s' = messageIdRef initial /\
    sockets s' = sockets initial.
Proof.
  apply (sendMessage_not_connected 5 "Hello" initial).
  left. reflexivity.
Defined.

(** *** The end of a session *)

(** Once the connected flag is down, the modal forwards no turn: any run of
    submissions leaves the session as it is. *)
Lemma submit_all_not_connected
    (trim : string -> string) (turns : list (Z * string)) (m : Modal) :
  isConnected (session m) = false ->
  session (submit_all trim turns m) = session m.
Proof.
  revert m. induction turns as [|[now typed] rest IH]; intros m Hoff; [reflexivity|].
  cbn [submit_all].
  assert (Hnop : handleSubmit trim now (mkModal (session m) typed)
                 = mkModal (session m) typed).
  { unfold handleSubmit. cbn. rewrite Hoff. cbn. now rewrite orb_true_r. }
  rewrite Hnop. now rewrite IH.
Qed.

(** C2, as stated, fails: in [after_end] the connected flag is down but the
    socket is still open, and [sendMessage] appends to the transcript and
    hands a turn record to the socket. *)
Lemma sendMessage_ignores_end :
  isConnected after_end = false /\
  messages (state_of (sendMessage 30 "Any fever?" after_end))
    = messages after_end ++ [ChatMessage.mk "msg-2" doctor "Any fever?" 30] /\
  WebSocket.sent <$> sockets (state_of (sendMessage 30 "Any fever?" after_end)) !! 0%nat
    = Some [InitRecord "doctor" demo_scenario; TurnRecord "Any fever?"] /\
  ~ (messages (state_of (sendMessage 30 "Any fever?" after_end)) = messages after_end /\
     sockets (state_of (sendMessage 30 "Any fever?" after_end)) = sockets after_end).
Proof.
  repeat split; try reflexivity.
  intros [Hm _]. vm_compute in Hm. discriminate.
Qed.

Lemma run_cons (e : Event) (es : list Event) (s : Session) :
  run (e :: es) s = run es (step e s).
Proof. reflexivity. Qed.

Lemma modal_run_cons (trim : string -> string) (a : ModalAction)
    (acts : list ModalAction) (m : Modal) :
  modal_run trim (a :: acts) m = modal_run trim acts (modal_step trim a m).
Proof. reflexivity. Qed.

(** The flags after a send are the flags before it, but for the waiting flag
    that a send on an open transport raises. *)
Lemma sendMessage_flags (now : Z) (text : string) (s : Session) :
  isConnected (state_of (sendMessage now text s)) = isConnected s /\
  isConnecting (state_of (sendMessage now text s)) = isConnecting s /\
  (isWaitingForResponse (state_of (sendMessage now text s)) = true \/
   isWaitingForResponse (state_of (sendMessage now text s)) = isWaitingForResponse s).
Proof.
  destruct (transport_open s) eqn:Hopen.
  - apply transport_open_true in Hopen as (ws & w & Href & Hw & Hr).
    rewrite (sendMessage_open now text s ws w Href Hw Hr). cbn. auto.
  - unfold sendMessage. rewrite Hopen. destruct (wsRef s), s; cbn; auto.
Qed.

(** While the waiting flag is up or the connected flag is down, the modal
    forwards nothing. *)
Lemma handleSubmit_blocked (trim : string -> string) (now : Z) (m : Modal) :
  isWaitingForResponse (session m) = true \/ isConnected (session m) = false ->
  handleSubmit trim now m = m.
Proof.
  intros [H|H]; unfold handleSubmit; rewrite H; cbn; now rewrite ?orb_true_r.
Qed.

(** No call and no event but the [open] of a socket raises the connected flag. *)
Lemma step_stays_disconnected (e : Event) (s : Session) :
  isConnected s = false ->
  is_open_event (Happens e) = false ->
  isConnected (step e s) = false.
Proof.
  intros Hoff Hnot.
  destruct e as [scenario|now text| | |ws|ws now data|ws|ws]; try discriminate;
    cbn [step].
  - unfold connect. destruct (transport_open s); now destruct s.
  - destruct (sendMessage_flags now text s) as (-> & _). exact Hoff.
  - unfold disconnect. destruct (wsRef s) as [ws|]; [|now destruct s].
    unfold ws_close. destruct (sockets s !! ws) as [w|]; [|now destruct s].
    destruct (WebSocket.readyState w); now destruct s.
  - now destruct s.
  - destruct (readyState_of (Some ws) s) as [[]|]; try assumption.
    unfold onmessage. destruct data as [[type text err]|]; [|assumption]. cbn.
    destruct (String.eqb type "message" && truthy_opt text); [now destruct s|].
    destruct (String.eqb type "error"); [now destruct s|].
    destruct (String.eqb type "end"); now destruct s.
  - destruct (readyState_of (Some ws) s); now destruct s.
  - unfold readyState_of. destruct (sockets s !! ws) as [w|] eqn:Hw; cbn; [|assumption].
    unfold set_readyState. rewrite Hw.
    destruct (WebSocket.readyState w); now destruct s.
Qed.

(** With the connected flag down and no socket opening, the submissions of a
    run count for nothing: the session is the one that the calls and events
    alone give, and the flag stays down. *)
Lemma modal_run_disconnected
    (trim : string -> string) (acts : list ModalAction) (m : Modal) :
  isConnected (session m) = false ->
  forallb (fun a => negb (is_open_event a)) acts = true ->
  session (modal_run trim acts m) = run (events_of acts) (session m) /\
  isConnected (session (modal_run trim acts m)) = false.
Proof.
  revert m. induction acts as [|a acts IH]; intros m Hoff Hacts; [auto|].
  cbn [forallb] in Hacts. apply andb_true_iff in Hacts as [Ha Hacts].
  apply negb_true_iff in Ha. rewrite modal_run_cons.
  destruct a as [e|now typed]; cbn [modal_step events_of].
  - rewrite run_cons.
    apply (IH (mkModal (step e (session m)) (inputValue m))); [|exact Hacts].
    now apply step_stays_disconnected.
  - rewrite handleSubmit_blocked by (now right).
    apply (IH (mkModal (session m) typed)); assumption.
Qed.

(** C2, amended: an inbound [{type:"end"}] record puts the connected flag
    down and changes nothing else, so the transport stays as it was. From
    then on, through every run of submissions, calls and events in which no
    socket opens (the [open] event is what raises the connected flag), the
    flag stays down and every submission through the modal's [handleSubmit]
    is dropped: the session is what the calls and events alone make it,
    nothing is appended or sent by a submission, also with the transport
    still open. [sendMessage] itself does not read the connected flag: with
    the transport open it still appends and sends. *)
Theorem end_stops_turns_at_handleSubmit
    (trim : string -> string) (now : Z) (text err : option string)
    (s : Session) (turns : list (Z * string)) (typed : string) :
  let s' := onmessage now (Some (SyrinxMessage.mk "end" text err)) s in
  s' = setIsConnected false s /\
  isConnected s' = false /\
  session (submit_all trim turns (mkModal s' typed)) = s' /\
  (forall acts,
     forallb (fun a => negb (is_open_event a)) acts = true ->
     session (modal_run trim acts (mkModal s' typed)) = run (events_of acts) s' /\
     isConnected (session (modal_run trim acts (mkModal s' typed))) = false /\
     forall now' typed',
       handleSubmit trim now'
                    (mkModal (session (modal_run trim acts (mkModal s' typed))) typed')
         = mkModal (session (modal_run trim acts (mkModal s' typed))) typed') /\
  forall now' turn ws w,
    wsRef s = Some ws ->
    sockets s !! ws = Some w ->
    WebSocket.readyState w = OPEN ->
    exists s'',
      sendMessage now' turn s' = Returned s'' /\
      messages s'' = messages s ++
        [ChatMessage.mk ("msg-" +:+ Number_toString (Int (messageIdRef s + 1)))
                        doctor turn now'] /\
      sockets s'' = <[ws := WebSocket.mk OPEN (WebSocket.sent w ++ [TurnRecord turn])
                                         (WebSocket.scenario w)]> (sockets s).
Proof.
  intros s'.
  assert (Hs' : s' = setIsConnected false s) by reflexivity.
  clearbody s'. subst s'.
  split; [reflexivity|]. split; [reflexivity|]. split; [|split].
  - now apply (submit_all_not_connected trim turns (mkModal (setIsConnected false s) typed)).
  - intros acts Hacts.
    destruct (modal_run_disconnected trim acts (mkModal (setIsConnected false s) typed)
                eq_refl Hacts) as [Hrun Hoff].
    split; [exact Hrun|]. split; [exact Hoff|].
    intros now' typed'. apply handleSubmit_blocked. now right.
  - intros now' turn ws w Href Hw Hr. eexists. split.
    + apply (sendMessage_open now' turn (setIsConnected false s) ws w); assumption.
    + split; reflexivity.
Qed.

Lemma end_stops_turns_at_handleSubmit_witness :
  isConnected after_end = false /\
  session (submit_all trim_ascii [(30, "Any fever?"); (40, "Hello?")]
                      (mkModal after_end "")) = after_end /\
  session (modal_run trim_ascii
             [Submits 30 "Any fever?"; Happens ClearError;
              Happens (WsMessage 0%nat 35
                         (Some (SyrinxMessage.mk "message" (Some "Are you there?") None)));
              Submits 40 "Hello?"]
             (mkModal after_end ""))
    = run [ClearError;
           WsMessage 0%nat 35
             (Some (SyrinxMessage.mk "message" (Some "Are you there?") None))]
          after_end /\
  exists s'',
    sendMessage 30 "Any fever?" after_end = Returned s'' /\
    messages s'' = [ChatMessage.mk "msg-1" parent "Hello doctor" 10;
                    ChatMessage.mk "msg-2" doctor "Any fever?" 30].
Proof.
  pose proof (end_stops_turns_at_handleSubmit trim_ascii 20 None None
                (run [WsMessage 0%nat 10
                        (Some (SyrinxMessage.mk "message" (Some "Hello doctor") None))]
                     awaiting_first_reply)
                [(30, "Any fever?"); (40, "Hello?")] "")
    as (_ & Hoff & Hsub & Hrun & Hsend).
  split; [exact Hoff|]. split; [exact Hsub|]. split.
  - exact (proj1 (Hrun [Submits 30 "Any fever?"; Happens ClearError;
                        Happens (WsMessage 0%nat 35
                                   (Some (SyrinxMessage.mk "message"
                                            (Some "Are you there?") None)));
                        Submits 40 "Hello?"] eq_refl)).
  - destruct (Hsend 30 "Any fever?" 0%nat
                (WebSocket.mk OPEN [InitRecord "doctor" demo_scenario] demo_scenario)
                eq_refl eq_refl eq_refl) as (s'' & Hret & Hmsgs & _).
    exists s''. split; [exact Hret|exact Hmsgs].
Defined.

(** The condition on the run is needed: in [reopened_by_old_socket] a socket
    left behind opened after the end of the session and the peer greeted on
    it; the connected flag is up again, and a submission sends a turn on the
    socket of the handle. *)
Lemma late_open_lifts_the_guard :
  isConnected reopened_by_old_socket = true /\
  messages (session (handleSubmit trim_ascii 40 (mkModal reopened_by_old_socket "Any fever?")))
    = [ChatMessage.mk "msg-1" parent "Hello doctor" 10;
       ChatMessage.mk "msg-2" parent "Hello doctor" 30;
       ChatMessage.mk "msg-3" doctor "Any fever?" 40] /\
  WebSocket.sent <$>
    sockets (session (handleSubmit trim_ascii 40
                                   (mkModal reopened_by_old_socket "Any fever?"))) !! 1%nat
    = Some [InitRecord "doctor" demo_scenario; TurnRecord "Any fever?"].
Proof. repeat split. Qed.

(** *** Errors *)

(** C3, as stated, fails for an empty error text: the current error becomes
    "An error occurred", not the text received. *)
Lemma empty_error_text_is_replaced :
  error (onmessage 10 (Some (SyrinxMessage.mk "error" None (Some ""))) awaiting_first_reply)
    = Some "An error occurred" /\
  error (onmessage 10 (Some (SyrinxMessage.mk "error" None (Some ""))) awaiting_first_reply)
    <> Some "".
Proof. split; [reflexivity|discriminate]. Qed.

(** C3, amended: an inbound [{type:"error", error: e}] record sets the
    current error to [e] when [e] is not empty and to "An error occurred"
    when it is empty or absent, replacing any prior error; it puts the
    waiting flag down and leaves the transcript, the connected flag and the
    rest of the session unchanged. *)
Theorem peer_error_surfaces
    (now : Z) (text e : option string) (s : Session) :
  let s' := onmessage now (Some (SyrinxMessage.mk "error" text e)) s in
  error s' = Some (match e with
                   | Some (String c rest) => String c rest
                   | Some EmptyString | None => "An error occurred"
                   end) /\
  isWaitingForResponse s' = false /\
  messages s' = messages s /\
  isConnected s' = isConnected s /\
  isConnecting s' = isConnecting s /\
  wsRef s' = wsRef s /\
  messageIdRef s' = messageIdRef s /\
  sockets s' = sockets s.
Proof.
  destruct s, e as [[|c rest]|]; cbn; repeat split.
Qed.

(** C4, as stated, fails: a transport fault on a connected session puts the
    connected flag down. *)
Lemma transport_fault_clears_connected :
  isConnected awaiting_first_reply = true /\
  isConnected (step (WsError 0%nat) awaiting_first_reply) = false /\
  isConnected (onerror awaiting_first_reply) <> isConnected awaiting_first_reply.
Proof. split; [reflexivity|]. split; [reflexivity|discriminate]. Qed.

(** C4, amended: a transport fault sets the current error to the fixed
    connection-error text (replacing any prior error) and puts the waiting,
    connected and connecting flags down; the transcript, the transport
    handle, the sockets and the identifier counter are unchanged. *)
Theorem transport_fault_surfaces (s : Session) :
  error (onerror s) = Some "Connection error. Is Syrinx running on port 8003?" /\
  isWaitingForResponse (onerror s) = false /\
  isConnected (onerror s) = false /\
  isConnecting (onerror s) = false /\
  messages (onerror s) = messages s /\
  wsRef (onerror s) = wsRef s /\
  messageIdRef (onerror s) = messageIdRef s /\
  sockets (onerror s) = sockets s.
Proof. destruct s; cbn; repeat split. Qed.

(** *** Disconnecting and connecting *)

Lemma wsRef_disconnect (s : Session) : wsRef (disconnect s) = None.
Proof.
  unfold disconnect. destruct (wsRef s) as [ws|] eqn:Href; cbn; [reflexivity|exact Href].
Qed.

(** C5: [disconnect] is idempotent. After it the connected and waiting flags
    are down, the transport handle is released and its socket is no longer
    open; a second call changes nothing, and neither does a call on a
    session that never connected. *)
Theorem disconnect_idempotent (s : Session) :
  disconnect (disconnect s) = disconnect s /\
  isConnected (disconnect s) = false /\
  isWaitingForResponse (disconnect s) = false /\
  wsRef (disconnect s) = None /\
  readyState_of (wsRef s) (disconnect s) <> Some OPEN /\
  readyState_of (wsRef s) (disconnect s) <> Some CONNECTING /\
  messages (disconnect s) = messages s /\
  error (disconnect s) = error s /\
  disconnect initial = initial.
Proof.
  split.
  { pose proof (wsRef_disconnect s) as Hnone.
    unfold disconnect at 1. rewrite Hnone.
    destruct (disconnect s) eqn:Hd. cbn.
    assert (H1 : isConnected (disconnect s) = false)
      by (unfold disconnect; destruct (wsRef s); reflexivity).
    assert (H2 : isWaitingForResponse (disconnect s) = false)
      by (unfold disconnect; destruct (wsRef s); reflexivity).
    rewrite Hd in H1, H2. cbn in H1, H2. now subst. }
  split; [unfold disconnect; destruct (wsRef s); reflexivity|].
  split; [unfold disconnect; destruct (wsRef s); reflexivity|].
  split; [apply wsRef_disconnect|].
  assert (Hstate : forall r, readyState_of (wsRef s) (disconnect s) = Some r ->
                             r = CLOSING \/ r = CLOSED).
  { intros r. unfold disconnect, readyState_of.
    destruct (wsRef s) as [ws|]; [|discriminate].
    unfold ws_close. destruct s as [ms c g wt e rf n socks]; cbn.
    destruct (socks !! ws) as [w|] eqn:Hw; cbn; [|now rewrite Hw].
    assert (Hlt : (ws < length socks)%nat) by (eapply lookup_lt_Some; eauto).
    destruct (WebSocket.readyState w) eqn:Hr; cbn;
      rewrite ?list_lookup_insert_eq by exact Hlt; rewrite ?Hw; cbn; rewrite ?Hr;
      intros [= <-]; auto. }
  split; [intros H; destruct (Hstate _ H); discriminate|].
  split; [intros H; destruct (Hstate _ H); discriminate|].
  split.
  { unfold disconnect. destruct (wsRef s) as [ws|]; [|reflexivity].
    unfold ws_close. cbn. destruct (sockets s !! ws) as [w|]; [|reflexivity].
    now destruct (WebSocket.readyState w). }
  split; [|reflexivity].
  unfold disconnect. destruct (wsRef s) as [ws|]; [|reflexivity].
  unfold ws_close. cbn. destruct (sockets s !! ws) as [w|]; [|reflexivity].
  now destruct (WebSocket.readyState w).
Qed.

(** C6: with the transport open, [connect] changes nothing. Otherwise it
    starts a fresh session: the transcript is emptied, the error cleared and
    the connecting flag raised, and the handle points to a new socket,
    still connecting, that has sent nothing; the sockets made before, the
    connected and waiting flags and the identifier counter are as they were. *)
Theorem connect_guard_and_reset (scenario : SyrinxScenario.t) (s : Session) :
  (readyState_of (wsRef s) s = Some OPEN -> connect scenario s = s) /\
  (readyState_of (wsRef s) s <> Some OPEN ->
     messages (connect scenario s) = [] /\
     error (connect scenario s) = None /\
     isConnecting (connect scenario s) = true /\
     wsRef (connect scenario s) = Some (length (sockets s)) /\
     sockets (connect scenario s) = sockets s ++ [WebSocket.mk CONNECTING [] scenario] /\
     readyState_of (wsRef (connect scenario s)) (connect scenario s) = Some CONNECTING /\
     isConnected (connect scenario s) = isConnected s /\
     isWaitingForResponse (connect scenario s) = isWaitingForResponse s /\
     messageIdRef (connect scenario s) = messageIdRef s).
Proof.
  split.
  - intros Hopen. unfold connect, transport_open. now rewrite Hopen.
  - intros Hclosed.
    assert (Hguard : transport_open s = false)
      by (apply transport_open_false; now right).
    unfold connect. rewrite Hguard. destruct s as [ms c g wt e rf n socks]; cbn.
    repeat split.
    rewrite lookup_app_r by reflexivity. now rewrite Nat.sub_diag.
Qed.

Lemma connect_guard_and_reset_witness :
  connect demo_scenario after_end = after_end /\
  messages (connect demo_scenario (disconnect after_end)) = [] /\
  error (connect demo_scenario (disconnect after_end)) = None /\
  wsRef (connect demo_scenario (disconnect after_end)) = Some 1%nat.
Proof.
  split.
  - apply (proj1 (connect_guard_and_reset demo_scenario after_end)). reflexivity.
  - destruct (proj2 (connect_guard_and_reset demo_scenario (disconnect after_end)))
      as (Hm & He & _ & Href & _).
    + discriminate.
    + repeat split; assumption.
Defined.

(** ** Properties of the scenario builder *)

Lemma append_cons (c : ascii) (a b : string) :
  String c a +:+ b = String c (a +:+ b).
Proof. reflexivity. Qed.

Lemma append_nil (b : string) : "" +:+ b = b.
Proof. reflexivity. Qed.

Lemma append_length (a b : string) :
  String.length (a +:+ b) = (String.length a + String.length b)%nat.
Proof.
  induction a as [|c a IH]; [reflexivity|].
  rewrite append_cons. cbn. now rewrite IH.
Qed.

Lemma append_assoc (a b c : string) : (a +:+ b) +:+ c = a +:+ (b +:+ c).
Proof.
  induction a as [|x a IH]; [reflexivity|].
  rewrite !append_cons. now rewrite IH.
Qed.

Lemma append_empty_r (a : string) : a +:+ "" = a.
Proof.
  induction a as [|x a IH]; [reflexivity|].
  rewrite append_cons. now rewrite IH.
Qed.

(** A count of months is never rendered as "0 years". *)
Lemma months_not_zero_years (r plural : string) :
  plural = "" \/ plural = "s" ->
  r +:+ " month" +:+ plural <> "0 years".
Proof.
  intros Hp Heq. pose proof (f_equal String.length Heq) as Hlen.
  rewrite !append_length in Hlen.
  destruct Hp as [-> | ->]; cbn in Hlen.
  - destruct r as [|c [|c' r]]; cbn in Hlen; try lia. cbn in Heq. discriminate.
  - destruct r as [|c r]; cbn in Hlen; try lia. cbn in Heq. discriminate.
Qed.

(** The code's boolean filter keeps the entries a decidable property holds of. *)
Lemma filter_reflect {A : Type} (f : A -> bool) (P : A -> Prop)
    `{!forall x, Decision (P x)} (l : list A) :
  (forall x, f x = true <-> P x) ->
  List.filter f l = filter P l.
Proof.
  intros Hf. induction l as [|x l IH]; [reflexivity|].
  cbn [List.filter]. rewrite filter_cons, IH.
  destruct (f x) eqn:Hx; destruct (decide (P x)) as [HP|HP]; try reflexivity.
  - exfalso. apply HP, Hf, Hx.
  - apply Hf in HP. congruence.
Qed.

Lemma truthy_nonempty (s : string) : truthy s = true <-> s <> "".
Proof. destruct s; cbn; split; congruence. Qed.

Lemma or_placeholder_cases (xs : list string) (placeholder : string) :
  or_placeholder xs placeholder =
    match xs with
    | [] => [placeholder]
    | _ :: _ => xs
    end.
Proof.
  unfold or_placeholder. destruct xs as [|x xs]; [reflexivity|].
  replace (0 <? Z.of_nat (length (x :: xs)))%Z with true; [reflexivity|].
  symmetry. apply Z.ltb_lt. cbn [length]. lia.
Qed.

(** C7: for a patient under one year the age is the number of whole
    30-day months since the date of birth, followed by "month" for one and
    "months" otherwise, and it is never "0 years"; from one year on it is
    the number of years, followed by "year" for one and "years" otherwise. *)
Theorem age_rendering
    (Date_getTime : string -> number) (now : Z) (pd : PatientDetail.t)
    (chiefComplaint : string) (persona : ParentPersona) :
  let p := PatientDetail.patient pd in
  let rendered :=
    ScenarioPatient.age
      (SyrinxScenario.patient (buildScenario Date_getTime now pd chiefComplaint persona)) in
  (Patient.age_years p < 1 ->
     rendered <> "0 years" /\
     forall t, Date_getTime (Patient.date_of_birth p) = Int t ->
       let months := elapsed_days now t / 30 in
       rendered = Number_toString (Int months)
                    +:+ (if decide (months = 1) then " month" else " months")) /\
  (1 <= Patient.age_years p ->
     rendered = Number_toString (Int (Patient.age_years p))
                  +:+ (if decide (Patient.age_years p = 1) then " year" else " years")).
Proof.
  intros p rendered. subst rendered. cbn. fold p. unfold ageString. split.
  - intros Hlt. apply Z.ltb_lt in Hlt. rewrite Hlt. split.
    + apply months_not_zero_years. destruct (neq_one _); auto.
    + intros t Ht. rewrite Ht. cbn [months_between].
      assert (Hm : (now - t) / MS_PER_30_DAYS = elapsed_days now t / 30).
      { unfold elapsed_days, MS_PER_30_DAYS. rewrite Z.div_div by lia. reflexivity. }
      rewrite Hm. cbn [neq_one Number_toString].
      destruct (decide (elapsed_days now t / 30 = 1)) as [H1|H1].
      * rewrite H1. reflexivity.
      * apply Z.eqb_neq in H1. rewrite H1. reflexivity.
  - intros Hge. apply Z.ltb_ge in Hge. rewrite Hge. cbn [neq_one Number_toString].
    destruct (decide (Patient.age_years p = 1)) as [H1|H1].
    + rewrite H1. reflexivity.
    + apply Z.eqb_neq in H1. rewrite H1. reflexivity.
Qed.

(** C8: the medications of the descriptor are the renderings of exactly the
    entries whose status is "active", in the order of the record; the chronic
    conditions are the names of exactly the entries whose clinical status is
    "active"; the allergies are the renderings of exactly the entries with a
    non-empty display name, where an allergy whose first reaction has a
    manifestation is rendered as its name followed by the manifestation in
    parentheses, and any other allergy as its name. (A roster with no such
    entry holds its placeholder only.) *)
Theorem active_entries_only
    (Date_getTime : string -> number) (now : Z) (pd : PatientDetail.t)
    (chiefComplaint : string) (persona : ParentPersona) :
  let d := SyrinxScenario.patient
             (buildScenario Date_getTime now pd chiefComplaint persona) in
  ScenarioPatient.medications d =
    match filter (fun m => Medication.status m = "active") (PatientDetail.medications pd) with
    | [] => ["None"]
    | kept => render_medication <$> kept
    end /\
  ScenarioPatient.chronic_conditions d =
    match filter (fun c => Condition.clinical_status c = "active")
                 (PatientDetail.conditions pd) with
    | [] => ["None"]
    | kept => Condition.display_name <$> kept
    end /\
  ScenarioPatient.allergies d =
    match filter (fun a => Allergy.display_name a <> "") (PatientDetail.allergies pd) with
    | [] => ["None known"]
    | kept => render_allergy <$> kept
    end /\
  (forall a r rest,
     Allergy.reactions a = Some (r :: rest) ->
     Reaction.manifestation r <> "" ->
     render_allergy a
       = Allergy.display_name a +:+ " (" +:+ Reaction.manifestation r +:+ ")") /\
  (forall a,
     Allergy.reactions a = None \/ Allergy.reactions a = Some [] \/
     (exists r rest, Allergy.reactions a = Some (r :: rest) /\ Reaction.manifestation r = "") ->
     render_allergy a = Allergy.display_name a).
Proof.
  intros d. subst d. cbn. rewrite !or_placeholder_cases.
  unfold activeMedications, activeConditions, activeAllergies.
  rewrite (filter_reflect _ (fun m => Medication.status m = "active"))
    by (intros m; apply String.eqb_eq).
  rewrite (filter_reflect _ (fun c => Condition.clinical_status c = "active"))
    by (intros c; apply String.eqb_eq).
  rewrite (filter_reflect _ (fun a => Allergy.display_name a <> ""))
    by (intros a; apply truthy_nonempty).
  split; [now destruct (filter _ (PatientDetail.medications pd))|].
  split; [now destruct (filter _ (PatientDetail.conditions pd))|].
  split; [now destruct (filter _ (PatientDetail.allergies pd))|].
  split.
  - intros a r rest Hr Hm. unfold render_allergy, first_manifestation. rewrite Hr.
    apply truthy_nonempty in Hm. now rewrite Hm.
  - intros a [Hr|[Hr|(r & rest & Hr & Hm)]];
      unfold render_allergy, first_manifestation; rewrite Hr; try reflexivity.
    now rewrite Hm.
Qed.

Lemma active_entries_only_witness :
  ScenarioPatient.medications
    (SyrinxScenario.patient (buildScenario sample_getTime sample_now infant "fever" anxious))
    = ["Amoxicillin 5ml twice daily"] /\
  ScenarioPatient.chronic_conditions
    (SyrinxScenario.patient (buildScenario sample_getTime sample_now infant "fever" anxious))
    = ["None"] /\
  ScenarioPatient.allergies
    (SyrinxScenario.patient (buildScenario sample_getTime sample_now infant "fever" anxious))
    = ["Peanut (hives)"; "Latex"] /\
  render_allergy (Allergy.mk "a1" "Peanut" None "high" (Some [Reaction.mk "hives" None]))
    = "Peanut (hives)" /\
  render_allergy (Allergy.mk "a3" "Latex" None "low" (Some [])) = "Latex".
Proof.
  destruct (active_entries_only sample_getTime sample_now infant "fever" anxious)
    as (Hm & Hc & Ha & Hshown & Hplain).
  split; [exact Hm|]. split; [exact Hc|]. split; [exact Ha|]. split.
  - assert (Hhives : Reaction.manifestation (Reaction.mk "hives" None) <> "")
      by discriminate.
    exact (Hshown (Allergy.mk "a1" "Peanut" None "high" (Some [Reaction.mk "hives" None]))
                  (Reaction.mk "hives" None) [] eq_refl Hhives).
  - exact (Hplain (Allergy.mk "a3" "Latex" None "low" (Some []))
                  (or_intror (or_introl eq_refl))).
Defined.

(** C9: the three rosters of the descriptor are never empty; a record with
    no allergy of non-empty name yields ["None known"], one with no active
    medication yields ["None"], and one with no active condition yields
    ["None"]. *)
Theorem rosters_never_empty
    (Date_getTime : string -> number) (now : Z) (pd : PatientDetail.t)
    (chiefComplaint : string) (persona : ParentPersona) :
  let d := SyrinxScenario.patient
             (buildScenario Date_getTime now pd chiefComplaint persona) in
  (ScenarioPatient.allergies d <> [] /\
   ScenarioPatient.medications d <> [] /\
   ScenarioPatient.chronic_conditions d <> []) /\
  (Forall (fun a => Allergy.display_name a = "") (PatientDetail.allergies pd) ->
   ScenarioPatient.allergies d = ["None known"]) /\
  (Forall (fun m => Medication.status m <> "active") (PatientDetail.medications pd) ->
   ScenarioPatient.medications d = ["None"]) /\
  (Forall (fun c => Condition.clinical_status c <> "active") (PatientDetail.conditions pd) ->
   ScenarioPatient.chronic_conditions d = ["None"]).
Proof.
  intros d. subst d. cbn. rewrite !or_placeholder_cases.
  assert (Hne : forall (xs : list string) (placeholder : string),
             match xs with [] => [placeholder] | _ :: _ => xs end <> []).
  { intros [|x xs] placeholder; discriminate. }
  split; [repeat split; apply Hne|].
  unfold activeAllergies, activeMedications, activeConditions.
  split; [|split].
  - intros Hall.
    replace (List.filter _ (PatientDetail.allergies pd)) with (@nil Allergy.t); [reflexivity|].
    symmetry. induction Hall as [|a l Ha _ IH]; [reflexivity|].
    cbn. now rewrite Ha.
  - intros Hall.
    replace (List.filter _ (PatientDetail.medications pd)) with (@nil Medication.t);
      [reflexivity|].
    symmetry. induction Hall as [|m l Hm _ IH]; [reflexivity|].
    cbn. apply String.eqb_neq in Hm. now rewrite Hm.
  - intros Hall.
    replace (List.filter _ (PatientDetail.conditions pd)) with (@nil Condition.t);
      [reflexivity|].
    symmetry. induction Hall as [|c l Hc _ IH]; [reflexivity|].
    cbn. apply String.eqb_neq in Hc. now rewrite Hc.
Qed.

Lemma rosters_never_empty_witness :
  ScenarioPatient.allergies
    (SyrinxScenario.patient (buildScenario sample_getTime sample_now toddler "cough" calm))
    = ["None known"] /\
  ScenarioPatient.medications
    (SyrinxScenario.patient (buildScenario sample_getTime sample_now toddler "cough" calm))
    = ["None"] /\
  ScenarioPatient.chronic_conditions
    (SyrinxScenario.patient (buildScenario sample_getTime sample_now infant "fever" anxious))
    = ["None"].
Proof.
  destruct (rosters_never_empty sample_getTime sample_now toddler "cough" calm)
    as (_ & Ha & Hm & _).
  destruct (rosters_never_empty sample_getTime sample_now infant "fever" anxious)
    as (_ & _ & _ & Hc).
  split; [apply Ha; constructor|]. split; [apply Hm; constructor|].
  apply Hc. repeat constructor. discriminate.
Defined.

Lemma age_rendering_witness :
  ScenarioPatient.age
    (SyrinxScenario.patient (buildScenario sample_getTime sample_now infant "fever" anxious))
    = "2 months" /\
  ScenarioPatient.age
    (SyrinxScenario.patient (buildScenario sample_getTime sample_now toddler "cough" calm))
    = "3 years".
Proof.
  split.
  - destruct (proj1 (age_rendering sample_getTime sample_now infant "fever" anxious))
      as [_ Hmonths]; [cbn; lia|].
    exact (Hmonths 1704067200000 eq_refl).
  - apply (proj2 (age_rendering sample_getTime sample_now toddler "cough" calm)).
    cbn. lia.
Defined.

(** ** Further properties of the session client *)

(** How one event changes the sockets: not at all, by one new connecting
    socket, or by one step of one socket. *)
Lemma step_sockets (e : Event) (s : Session) :
  sockets (step e s) = sockets s \/
  (exists scenario, e = Connect scenario /\
     sockets (step e s) = sockets s ++ [WebSocket.mk CONNECTING [] scenario]) \/
  (exists ws w w', sockets s !! ws = Some w /\ socket_step w w' /\
     sockets (step e s) = <[ws := w']> (sockets s)).
Proof.
  destruct e as [scenario|now text| | |ws|ws now data|ws|ws]; cbn [step].
  - unfold connect. destruct (transport_open s); [now left|].
    right. left. exists scenario. split; [reflexivity|]. now destruct s.
  - destruct (transport_open s) eqn:Hopen.
    + apply transport_open_true in Hopen as (ws & w & Href & Hw & Hr).
      rewrite (sendMessage_open now text s ws w Href Hw Hr). cbn.
      right. right. exists ws, w. eexists. split; [exact Hw|]. split; [|reflexivity].
      now apply socket_turn.
    + left. unfold sendMessage. rewrite Hopen. now destruct (wsRef s), s.
  - unfold disconnect. destruct (wsRef s) as [ws|] eqn:Href; [|now left].
    unfold ws_close. destruct (sockets s !! ws) as [w|] eqn:Hw; [|now left].
    destruct (WebSocket.readyState w) eqn:Hr; try (now left).
    + right. right. exists ws, w. eexists. split; [exact Hw|]. split; [|reflexivity].
      apply socket_closing. now left.
    + right. right. exists ws, w. eexists. split; [exact Hw|]. split; [|reflexivity].
      apply socket_closing. now right.
  - now left.
  - unfold readyState_of. destruct (sockets s !! ws) as [w|] eqn:Hw; [|now left].
    cbn. destruct (WebSocket.readyState w) eqn:Hr; try (now left).
    right. right. exists ws, w. eexists. split; [exact Hw|]. split; [now apply socket_opens|].
    assert (Hlt : (ws < length (sockets s))%nat) by (eapply lookup_lt_Some; eauto).
    unfold onopen, set_readyState. rewrite Hw. destruct s as [ms c g wt e rf n socks].
    cbn in *. rewrite list_lookup_insert_eq by exact Hlt. unfold ws_send. cbn.
    rewrite list_lookup_insert_eq by exact Hlt. cbn.
    now rewrite list_insert_insert_eq.
  - left. destruct (readyState_of (Some ws) s) as [[]|]; try reflexivity.
    unfold onmessage. destruct data as [d|]; [|reflexivity].
    destruct (_ && _); [now destruct s|].
    destruct (String.eqb _ "error"); [now destruct s|].
    destruct (String.eqb _ "end"); now destruct s.
  - left. destruct (readyState_of (Some ws) s); now destruct s.
  - unfold readyState_of. destruct (sockets s !! ws) as [w|] eqn:Hw; [|now left].
    cbn. assert (Hclose : sockets (onclose (set_readyState ws CLOSED s))
                          = <[ws := WebSocket.mk CLOSED (WebSocket.sent w)
                                                 (WebSocket.scenario w)]> (sockets s)).
    { unfold set_readyState. rewrite Hw. now destruct s. }
    destruct (WebSocket.readyState w) eqn:Hr; try (now left);
      right; right; exists ws, w; eexists; (split; [exact Hw|]); (split; [|exact Hclose]);
      apply socket_closed; congruence.
Qed.

Lemma socket_step_in_protocol (w w' : WebSocket.t) :
  socket_in_protocol w -> socket_step w w' -> socket_in_protocol w'.
Proof.
  intros Hw Hstep. unfold socket_in_protocol in *.
  destruct Hstep as [text Hr|Hr|Hr|Hr]; cbn.
  - destruct Hw as [[_ Hno]|(turns & Hsent & _)]; [congruence|].
    right. exists (turns ++ [text]). split; [|discriminate].
    rewrite Hsent, map_app. reflexivity.
  - destruct Hw as [[Hsent _]|(turns & _ & Hno)]; [|congruence].
    right. exists []. split; [|discriminate]. now rewrite Hsent.
  - destruct Hw as [[Hsent _]|(turns & Hsent & _)].
    + left. split; [exact Hsent|discriminate].
    + right. exists turns. split; [exact Hsent|discriminate].
  - destruct Hw as [[Hsent _]|(turns & Hsent & _)].
    + left. split; [exact Hsent|discriminate].
    + right. exists turns. split; [exact Hsent|discriminate].
Qed.

Lemma step_in_protocol (e : Event) (s : Session) :
  Forall socket_in_protocol (sockets s) ->
  Forall socket_in_protocol (sockets (step e s)).
Proof.
  intros Hall.
  destruct (step_sockets e s) as [->|[(scenario & _ & ->)|(ws & w & w' & Hw & Hstep & ->)]].
  - exact Hall.
  - apply Forall_app. split; [exact Hall|]. constructor; [|constructor].
    left. split; [reflexivity|discriminate].
  - apply Forall_insert; [exact Hall|].
    apply (socket_step_in_protocol w w'); [|exact Hstep].
    eapply Forall_lookup_1; eauto.
Qed.

(** X1: in every state the hook reaches from its mount, each socket's frames
    are in protocol order: a socket that has not opened has sent nothing; a
    socket that has opened sent one init record first, with role "doctor" and
    the scenario given to the [connect] that made it, and only turn records
    after it. *)
Theorem frames_in_protocol_order (es : list Event) :
  Forall socket_in_protocol (sockets (run es initial)).
Proof.
  assert (Hrun : forall es s, Forall socket_in_protocol (sockets s) ->
                              Forall socket_in_protocol (sockets (run es s))).
  { clear es. induction es as [|e es IH]; intros s Hs; [exact Hs|].
    rewrite run_cons. apply IH, step_in_protocol, Hs. }
  apply Hrun. constructor.
Qed.

Lemma socket_step_advances (w w' : WebSocket.t) :
  socket_step w w' ->
  WebSocket.scenario w' = WebSocket.scenario w /\
  WebSocket.sent w `prefix_of` WebSocket.sent w' /\
  (ReadyState_rank (WebSocket.readyState w) <= ReadyState_rank (WebSocket.readyState w'))%nat.
Proof.
  intros [text Hr|Hr|Hr|Hr]; cbn; (split; [reflexivity|]); split;
    try (now apply prefix_app_r); try reflexivity;
    try (rewrite Hr; cbn; lia).
  - destruct Hr as [-> | ->]; cbn; lia.
  - destruct (WebSocket.readyState w); cbn; lia.
Qed.

(** X2: a socket, once made, stays: whatever calls and events follow, it
    keeps its index and its scenario, the frames handed to it are never
    taken back (what it had sent is a prefix of what it has sent), and its
    ready state never goes back in the order connecting, open, closing,
    closed. *)
Theorem sockets_only_advance (es : list Event) (s : Session) (ws : nat) (w : WebSocket.t) :
  sockets s !! ws = Some w ->
  exists w',
    sockets (run es s) !! ws = Some w' /\
    WebSocket.scenario w' = WebSocket.scenario w /\
    WebSocket.sent w `prefix_of` WebSocket.sent w' /\
    (ReadyState_rank (WebSocket.readyState w) <= ReadyState_rank (WebSocket.readyState w'))%nat.
Proof.
  revert s w. induction es as [|e es IH]; intros s w Hw.
  - exists w. split; [exact Hw|]. split; [reflexivity|]. split; [reflexivity|lia].
  - rewrite run_cons.
    assert (Hone : exists w1, sockets (step e s) !! ws = Some w1 /\
              WebSocket.scenario w1 = WebSocket.scenario w /\
              WebSocket.sent w `prefix_of` WebSocket.sent w1 /\
              (ReadyState_rank (WebSocket.readyState w)
               <= ReadyState_rank (WebSocket.readyState w1))%nat).
    { destruct (step_sockets e s)
        as [->|[(scenario & _ & ->)|(ws0 & w0 & w0' & Hw0 & Hstep & ->)]].
      - exists w. split; [exact Hw|]. split; [reflexivity|]. split; [reflexivity|lia].
      - exists w. split; [now apply lookup_app_l_Some|].
        split; [reflexivity|]. split; [reflexivity|lia].
      - destruct (decide (ws0 = ws)) as [->|Hne].
        + exists w0'. assert (w0 = w) by congruence. subst w0.
          split; [|now apply socket_step_advances].
          apply list_lookup_insert_eq. eapply lookup_lt_Some; eauto.
        + exists w. split; [now rewrite list_lookup_insert_ne|].
          split; [reflexivity|]. split; [reflexivity|lia]. }
    destruct Hone as (w1 & Hw1 & Hsc1 & Hpre1 & Hrank1).
    destruct (IH (step e s) w1 Hw1) as (w' & Hw' & Hsc & Hpre & Hrank).
    exists w'. split; [exact Hw'|]. split; [congruence|].
    split; [now transitivity (WebSocket.sent w1)|lia].
Qed.

Lemma sockets_only_advance_witness :
  exists w',
    sockets after_end !! 0%nat = Some w' /\
    WebSocket.scenario w' = demo_scenario /\
    [InitRecord "doctor" demo_scenario] `prefix_of` WebSocket.sent w' /\
    (1 <= ReadyState_rank (WebSocket.readyState w'))%nat.
Proof.
  apply (sockets_only_advance
           [WsMessage 0%nat 10 (Some (SyrinxMessage.mk "message" (Some "Hello doctor") None));
            WsMessage 0%nat 20 (Some (SyrinxMessage.mk "end" None None))]
           awaiting_first_reply 0%nat
           (WebSocket.mk OPEN [InitRecord "doctor" demo_scenario] demo_scenario)).
  reflexivity.
Defined.

(** *** The transcript and its identifiers *)

Lemma to_int_not_nil (z : Z) :
  Z.to_int z <> Decimal.Pos Decimal.Nil /\ Z.to_int z <> Decimal.Neg Decimal.Nil.
Proof.
  destruct z as [|p|p]; cbn; split; try discriminate;
    intros [= H]; now apply Unsigned.to_uint_nonnil in H.
Qed.

(** Different counter values give different identifiers. *)
Lemma msg_id_inj (a b : Z) : msg_id a = msg_id b -> a = b.
Proof.
  unfold msg_id. intros H. apply (inj (String.append "msg-")) in H. cbn in H.
  apply (f_equal NilZero.int_of_string) in H.
  destruct (to_int_not_nil a) as [Ha1 Ha2], (to_int_not_nil b) as [Hb1 Hb2].
  rewrite !NilZero.isi in H by assumption.
  injection H as H. now apply to_int_inj.
Qed.

(** How one event changes the transcript and the counter: not at all; a
    [connect] that passes its guard empties the transcript; a send on an open
    transport and an inbound message with a text each append one entry under
    the next identifier. *)
Lemma step_transcript (e : Event) (s : Session) :
  (messages (step e s) = messages s /\ messageIdRef (step e s) = messageIdRef s) \/
  (exists scenario, e = Connect scenario /\
     messages (step e s) = [] /\ messageIdRef (step e s) = messageIdRef s) \/
  (exists now text, e = SendMessage now text /\
     messages (step e s)
       = messages s ++ [ChatMessage.mk (msg_id (messageIdRef s + 1)) doctor text now] /\
     messageIdRef (step e s) = (messageIdRef s + 1)%Z) \/
  (exists ws now d text, e = WsMessage ws now (Some d) /\
     SyrinxMessage.type d = "message" /\ SyrinxMessage.text d = Some text /\ text <> "" /\
     messages (step e s)
       = messages s ++ [ChatMessage.mk (msg_id (messageIdRef s + 1)) parent text now] /\
     messageIdRef (step e s) = (messageIdRef s + 1)%Z).
Proof.
  destruct e as [scenario|now text| | |ws|ws now data|ws|ws]; cbn [step].
  - unfold connect. destruct (transport_open s); [now left|].
    right. left. exists scenario. now destruct s.
  - destruct (transport_open s) eqn:Hopen.
    + apply transport_open_true in Hopen as (ws & w & Href & Hw & Hr).
      rewrite (sendMessage_open now text s ws w Href Hw Hr). cbn.
      right. right. left. exists now, text. auto.
    + left. unfold sendMessage. rewrite Hopen. now destruct (wsRef s), s.
  - left. unfold disconnect. destruct (wsRef s) as [ws|]; [|now destruct s].
    unfold ws_close. destruct (sockets s !! ws) as [w|]; [|now destruct s].
    destruct (WebSocket.readyState w); now destruct s.
  - left. now destruct s.
  - left. unfold readyState_of. destruct (sockets s !! ws) as [w|] eqn:Hw; [|auto].
    cbn. destruct (WebSocket.readyState w); auto.
    destruct (onopen_returns ws s w Hw) as (s' & Hs').
    assert (Hlt : (ws < length (sockets s))%nat) by (eapply lookup_lt_Some; eauto).
    unfold onopen, set_readyState. rewrite Hw. destruct s as [ms c g wt e rf n socks].
    cbn in *. rewrite list_lookup_insert_eq by exact Hlt. unfold ws_send. cbn.
    rewrite list_lookup_insert_eq by exact Hlt. cbn. auto.
  - destruct (readyState_of (Some ws) s) as [[]|]; auto.
    unfold onmessage. destruct data as [[type text err]|]; [|auto]. cbn.
    destruct (String.eqb type "message") eqn:Htype; cbn [andb].
    + apply String.eqb_eq in Htype. subst type.
      destruct text as [text|]; cbn; [|auto].
      destruct (truthy text) eqn:Htruthy; cbn; [|auto].
      right. right. right. eexists ws, now, _, text.
      split; [reflexivity|]. split; [reflexivity|]. split; [reflexivity|].
      split; [now apply truthy_nonempty|]. now destruct s.
    + destruct (String.eqb type "error"); [left; now destruct s|].
      destruct (String.eqb type "end"); left; now destruct s.
  - left. destruct (readyState_of (Some ws) s); now destruct s.
  - left. unfold readyState_of. destruct (sockets s !! ws) as [w|] eqn:Hw; [|auto].
    cbn. unfold set_readyState. rewrite Hw.
    destruct (WebSocket.readyState w); now destruct s.
Qed.

Lemma StronglySorted_lt_snoc (ns : list Z) (k : Z) :
  StronglySorted Z.lt ns ->
  Forall (fun n => n <= k) ns ->
  StronglySorted Z.lt (ns ++ [k + 1]).
Proof.
  intros Hsorted Hle. apply StronglySorted_app_2.
  - intros x1 x2 Hx1 Hx2. apply list_elem_of_singleton in Hx2. subst x2.
    rewrite Forall_forall in Hle. specialize (Hle x1 Hx1). cbn in Hle. lia.
  - exact Hsorted.
  - repeat constructor.
Qed.

Lemma StronglySorted_lt_NoDup (ns : list Z) : StronglySorted Z.lt ns -> NoDup ns.
Proof.
  induction 1 as [|n ns _ IH Hall]; constructor; [|exact IH].
  intros Hin. rewrite Forall_forall in Hall. specialize (Hall n Hin). lia.
Qed.

Lemma ids_increasing_step (e : Event) (s : Session) :
  ids_increasing s -> ids_increasing (step e s).
Proof.
  intros (Hpos & ns & Hids & Hsorted & Hbound). unfold ids_increasing.
  assert (Hnext : forall speaker text now,
            exists ns',
              map ChatMessage.id
                  (messages s ++ [ChatMessage.mk (msg_id (messageIdRef s + 1))
                                                 speaker text now])
                = map msg_id ns' /\
              StronglySorted Z.lt ns' /\
              Forall (fun n => 1 <= n <= messageIdRef s + 1) ns').
  { intros speaker text now. exists (ns ++ [messageIdRef s + 1]).
    split; [now rewrite !map_app, Hids|]. split.
    - apply StronglySorted_lt_snoc; [exact Hsorted|].
      eapply Forall_impl; [exact Hbound|]. cbn. intros n Hn. lia.
    - apply Forall_app. split.
      + eapply Forall_impl; [exact Hbound|]. cbn. intros n Hn. lia.
      + constructor; [lia|constructor]. }
  destruct (step_transcript e s)
    as [[-> ->]|[(scenario & _ & -> & ->)
       |[(now & text & _ & -> & ->)|(ws & now & d & text & _ & _ & _ & _ & -> & ->)]]].
  - split; [exact Hpos|]. exists ns. auto.
  - split; [exact Hpos|]. exists []. repeat split; constructor.
  - split; [lia|]. apply Hnext.
  - split; [lia|]. apply Hnext.
Qed.

(** X3: in every state the hook reaches from its mount, the identifiers of
    the transcript are [msg-n] for strictly increasing counter values [n]
    between 1 and the counter's present value; so no two entries of a
    transcript share an identifier, across reconnects too (a fresh
    [connect] empties the transcript but keeps the counter). *)
Theorem transcript_ids_unique (es : list Event) :
  ids_increasing (run es initial) /\
  NoDup (map ChatMessage.id (messages (run es initial))).
Proof.
  assert (Hrun : forall es s, ids_increasing s -> ids_increasing (run es s)).
  { clear es. induction es as [|e es IH]; intros s Hs; [exact Hs|].
    rewrite run_cons. apply IH, ids_increasing_step, Hs. }
  assert (Hinit : ids_increasing initial).
  { split; [cbn; lia|]. exists []. repeat split; constructor. }
  pose proof (Hrun es initial Hinit) as Hinv. split; [exact Hinv|].
  destruct Hinv as (_ & ns & -> & Hsorted & _).
  assert (Hinj : Inj eq eq msg_id) by (intros a b; apply msg_id_inj).
  apply (NoDup_fmap_2 msg_id). now apply StronglySorted_lt_NoDup.
Qed.

(** X4: the transcript is append-only between connects: over any run of
    calls and events with no [connect] among them, the transcript at the
    start is a prefix of the transcript at the end, and each call or event
    adds at most one entry. *)
Theorem transcript_append_only (es : list Event) (s : Session) :
  forallb (fun e => negb (is_connect e)) es = true ->
  messages s `prefix_of` messages (run es s) /\
  (length (messages (run es s)) <= length (messages s) + length es)%nat.
Proof.
  revert s. induction es as [|e es IH]; intros s Hes.
  - split; [reflexivity|cbn; lia].
  - cbn [forallb] in Hes. apply andb_true_iff in Hes as [He Hes].
    rewrite run_cons. destruct (IH (step e s) Hes) as [Hpre Hlen].
    assert (Hone : messages s `prefix_of` messages (step e s) /\
                   (length (messages (step e s)) <= length (messages s) + 1)%nat).
    { destruct (step_transcript e s)
        as [[-> _]|[(scenario & -> & _)
           |[(now & text & _ & -> & _)|(ws & now & d & text & _ & _ & _ & _ & -> & _)]]].
      - split; [reflexivity|lia].
      - discriminate.
      - split; [now apply prefix_app_r|rewrite length_app; cbn; lia].
      - split; [now apply prefix_app_r|rewrite length_app; cbn; lia]. }
    destruct Hone as [Hpre1 Hlen1]. split.
    + now transitivity (messages (step e s)).
    + cbn [length]. lia.
Qed.

Lemma transcript_append_only_witness :
  messages awaiting_first_reply `prefix_of` messages after_end /\
  (length (messages after_end) <= length (messages awaiting_first_reply) + 2)%nat.
Proof.
  apply (transcript_append_only
           [WsMessage 0%nat 10 (Some (SyrinxMessage.mk "message" (Some "Hello doctor") None));
            WsMessage 0%nat 20 (Some (SyrinxMessage.mk "end" None None))]
           awaiting_first_reply).
  reflexivity.
Defined.

(** *** Errors and flags over events *)

(** X5: the current error changes only in five ways: a [connect] that passes
    its guard and [clearError] reset it; a send without an open transport, a
    transport fault and an inbound error record set it. Every other call or
    event (a reply, the end of the session, a close, a disconnect, a
    successful send) leaves it as it is. *)
Theorem error_changes_only_by (e : Event) (s : Session) :
  error (step e s) = error s \/
  (exists scenario, e = Connect scenario /\ transport_open s = false /\
     error (step e s) = None) \/
  (e = ClearError /\ error (step e s) = None) \/
  (exists now text, e = SendMessage now text /\ transport_open s = false /\
     error (step e s) = Some "Not connected to Syrinx") \/
  (exists ws, e = WsError ws /\
     error (step e s) = Some "Connection error. Is Syrinx running on port 8003?") \/
  (exists ws now d, e = WsMessage ws now (Some d) /\ SyrinxMessage.type d = "error" /\
     error (step e s) = Some (or_default (SyrinxMessage.error d) "An error occurred")).
Proof.
  destruct e as [scenario|now text| | |ws|ws now data|ws|ws]; cbn [step].
  - unfold connect. destruct (transport_open s) eqn:Hopen; [now left|].
    right. left. exists scenario. now destruct s.
  - destruct (transport_open s) eqn:Hopen.
    + apply transport_open_true in Hopen as (ws & w & Href & Hw & Hr).
      rewrite (sendMessage_open now text s ws w Href Hw Hr). now left.
    + right. right. right. left. exists now, text.
      unfold sendMessage. rewrite Hopen. now destruct (wsRef s), s.
  - left. unfold disconnect. destruct (wsRef s) as [ws|]; [|now destruct s].
    unfold ws_close. destruct (sockets s !! ws) as [w|]; [|now destruct s].
    destruct (WebSocket.readyState w); now destruct s.
  - right. right. left. now destruct s.
  - left. unfold readyState_of. destruct (sockets s !! ws) as [w|] eqn:Hw; [|auto].
    cbn. destruct (WebSocket.readyState w); auto.
    assert (Hlt : (ws < length (sockets s))%nat) by (eapply lookup_lt_Some; eauto).
    unfold onopen, set_readyState. rewrite Hw. destruct s as [ms c g wt e rf n socks].
    cbn in *. rewrite list_lookup_insert_eq by exact Hlt. unfold ws_send. cbn.
    rewrite list_lookup_insert_eq by exact Hlt. reflexivity.
  - destruct (readyState_of (Some ws) s) as [[]|]; auto.
    unfold onmessage. destruct data as [[type text err]|]; [|auto]. cbn.
    destruct (String.eqb type "message" && truthy_opt text); [left; now destruct s|].
    destruct (String.eqb type "error") eqn:Htype.
    + right. right. right. right. right. eexists ws, now, _.
      split; [reflexivity|]. apply String.eqb_eq in Htype. split; [exact Htype|].
      now destruct s.
    + destruct (String.eqb type "end"); left; now destruct s.
  - destruct (readyState_of (Some ws) s); [|now left].
    right. right. right. right. left. exists ws. now destruct s.
  - left. unfold readyState_of. destruct (sockets s !! ws) as [w|] eqn:Hw; [|auto].
    cbn. unfold set_readyState. rewrite Hw.
    destruct (WebSocket.readyState w); now destruct s.
Qed.

(** X6: the flags rise in one way each: the connected flag only at the
    [open] of a connecting socket, the connecting flag only at a [connect]
    that passes its guard, and the waiting flag only at such an [open] or at
    a send on an open transport. *)
Theorem flags_rise_only_by (e : Event) (s : Session) :
  (isConnected s = false -> isConnected (step e s) = true ->
     exists ws, e = WsOpen ws /\ readyState_of (Some ws) s = Some CONNECTING) /\
  (isConnecting s = false -> isConnecting (step e s) = true ->
     exists scenario, e = Connect scenario /\ transport_open s = false) /\
  (isWaitingForResponse s = false -> isWaitingForResponse (step e s) = true ->
     (exists ws, e = WsOpen ws /\ readyState_of (Some ws) s = Some CONNECTING) \/
     (exists now text, e = SendMessage now text /\ transport_open s = true)).
Proof.
  assert (Hsend : forall now text,
            isConnected (state_of (sendMessage now text s)) = isConnected s /\
            isConnecting (state_of (sendMessage now text s)) = isConnecting s /\
            (transport_open s = false ->
             isWaitingForResponse (state_of (sendMessage now text s))
               = isWaitingForResponse s)).
  { intros now text. destruct (transport_open s) eqn:Hopen.
    - apply transport_open_true in Hopen as (ws & w & Href & Hw & Hr).
      rewrite (sendMessage_open now text s ws w Href Hw Hr). cbn.
      repeat split. discriminate.
    - unfold sendMessage. rewrite Hopen. now destruct (wsRef s), s. }
  assert (Hdisc : isConnected (disconnect s) = false /\
                  isConnecting (disconnect s) = isConnecting s /\
                  isWaitingForResponse (disconnect s) = false).
  { unfold disconnect. destruct (wsRef s) as [ws|]; [|now destruct s].
    unfold ws_close. destruct (sockets s !! ws) as [w|]; [|now destruct s].
    destruct (WebSocket.readyState w); now destruct s. }
  assert (Hmsg : forall now data,
            (isConnected s = false -> isConnected (onmessage now data s) = false) /\
            isConnecting (onmessage now data s) = isConnecting s /\
            (isWaitingForResponse s = false ->
             isWaitingForResponse (onmessage now data s) = false)).
  { intros now data. unfold onmessage. destruct data as [[type text err]|]; [|auto]. cbn.
    destruct (String.eqb type "message" && truthy_opt text); [now destruct s|].
    destruct (String.eqb type "error"); [now destruct s|].
    destruct (String.eqb type "end"); now destruct s. }
  destruct e as [scenario|now text| | |ws|ws now data|ws|ws]; cbn [step].
  - unfold connect. destruct (transport_open s) eqn:Hopen.
    + repeat split; congruence.
    + destruct s; cbn. repeat split; try congruence. intros _ _. now exists scenario.
  - destruct (Hsend now text) as (Hc & Hg & Hw). rewrite Hc, Hg.
    repeat split; try congruence. intros Hoff Hon. right. exists now, text.
    split; [reflexivity|]. destruct (transport_open s); [reflexivity|].
    rewrite Hw in Hon by reflexivity. congruence.
  - destruct Hdisc as (Hc & Hg & Hw). rewrite Hc, Hg, Hw. repeat split; congruence.
  - destruct s; cbn. repeat split; congruence.
  - destruct (readyState_of (Some ws) s) as [[]|] eqn:Hr; try (repeat split; congruence).
    split; [intros _ _; now exists ws|]. split; [|intros _ _; left; now exists ws].
    unfold readyState_of in Hr. destruct (sockets s !! ws) as [w|] eqn:Hw; [|discriminate].
    assert (Hlt : (ws < length (sockets s))%nat) by (eapply lookup_lt_Some; eauto).
    unfold onopen, set_readyState. rewrite Hw. destruct s as [ms c g wt e rf n socks].
    cbn in *. rewrite list_lookup_insert_eq by exact Hlt. unfold ws_send. cbn.
    rewrite list_lookup_insert_eq by exact Hlt. cbn. congruence.
  - destruct (readyState_of (Some ws) s) as [[]|]; try (repeat split; congruence).
    destruct (Hmsg now data) as (Hc & Hg & Hw). rewrite Hg.
    repeat split; try congruence.
    + intros Hoff. rewrite (Hc Hoff). congruence.
    + intros Hoff. rewrite (Hw Hoff). congruence.
  - destruct (readyState_of (Some ws) s); [|repeat split; congruence].
    destruct s; cbn. repeat split; congruence.
  - unfold readyState_of. destruct (sockets s !! ws) as [w|] eqn:Hw; cbn;
      [|repeat split; congruence].
    unfold set_readyState. rewrite Hw.
    destruct (WebSocket.readyState w); destruct s; cbn; repeat split; congruence.
Qed.

Lemma flags_rise_only_by_witness :
  (exists ws, WsOpen 1%nat = WsOpen ws /\
     readyState_of (Some ws) (run [Connect demo_scenario; Disconnect; Connect demo_scenario]
                                  initial) = Some CONNECTING) /\
  (exists scenario, Connect demo_scenario = Connect scenario /\
     transport_open initial = false).
Proof.
  split.
  - apply (proj1 (flags_rise_only_by
                    (WsOpen 1%nat)
                    (run [Connect demo_scenario; Disconnect; Connect demo_scenario] initial)));
      reflexivity.
  - apply (proj1 (proj2 (flags_rise_only_by (Connect demo_scenario) initial)));
      reflexivity.
Defined.

(** *** Sockets that are not the current one *)

Lemma call_leaves_other_sockets (e : Event) (s : Session) (ws : nat) (w : WebSocket.t) :
  is_call e = true ->
  sockets s !! ws = Some w ->
  wsRef s <> Some ws ->
  sockets (step e s) !! ws = Some w /\ wsRef (step e s) <> Some ws.
Proof.
  intros Hcall Hw Hother.
  assert (Hlt : (ws < length (sockets s))%nat) by (eapply lookup_lt_Some; eauto).
  destruct e as [scenario|now text| | |ws0|ws0 now data|ws0|ws0]; try discriminate;
    cbn [step].
  - unfold connect. destruct (transport_open s); [auto|].
    destruct s as [ms c g wt e rf n socks]; cbn in *. split.
    + now apply lookup_app_l_Some.
    + intros [= Heq]. lia.
  - destruct (transport_open s) eqn:Hopen.
    + apply transport_open_true in Hopen as (ws0 & w0 & Href & Hw0 & Hr).
      rewrite (sendMessage_open now text s ws0 w0 Href Hw0 Hr). cbn.
      assert (ws0 <> ws) by congruence.
      split; [now rewrite list_lookup_insert_ne|congruence].
    + unfold sendMessage. rewrite Hopen.
      destruct s as [ms c g wt e rf n socks]; cbn in *. destruct rf; cbn; auto.
  - unfold disconnect. destruct (wsRef s) as [ws0|] eqn:Href;
      [|destruct s; cbn in *; subst; auto].
    assert (ws0 <> ws) by congruence.
    unfold ws_close. destruct (sockets s !! ws0) as [w0|]; [|destruct s; cbn in *; auto].
    destruct (WebSocket.readyState w0); destruct s; cbn in *;
      rewrite ?list_lookup_insert_ne by assumption; auto.
  - destruct s; cbn in *; auto.
Qed.

(** X7: the calls of the hook reach the current socket only. A socket that
    [wsRef] has left behind (as after a [connect] on a transport still
    connecting, which does not close it) keeps its ready state and its frames
    through every later [connect], send, [disconnect] and [clearError]: only
    the transport itself can close it. *)
Theorem calls_leave_other_sockets
    (es : list Event) (s : Session) (ws : nat) (w : WebSocket.t) :
  forallb is_call es = true ->
  sockets s !! ws = Some w ->
  wsRef s <> Some ws ->
  sockets (run es s) !! ws = Some w /\ wsRef (run es s) <> Some ws.
Proof.
  revert s. induction es as [|e es IH]; intros s Hcalls Hw Hother; [auto|].
  cbn [forallb] in Hcalls. apply andb_true_iff in Hcalls as [Hcall Hcalls].
  rewrite run_cons.
  destruct (call_leaves_other_sockets e s ws w Hcall Hw Hother) as [Hw1 Hother1].
  now apply IH.
Qed.

Lemma calls_leave_other_sockets_witness :
  sockets (run [SendMessage 5 "Hello"; Disconnect; Connect demo_scenario; ClearError]
               connected_twice) !! 0%nat
    = Some (WebSocket.mk CONNECTING [] demo_scenario).
Proof.
  apply (calls_leave_other_sockets
           [SendMessage 5 "Hello"; Disconnect; Connect demo_scenario; ClearError]
           connected_twice 0%nat (WebSocket.mk CONNECTING [] demo_scenario));
    [reflexivity|reflexivity|discriminate].
Defined.

(** X8: a [close] event puts the connected, connecting and waiting flags
    down and leaves the error, the transcript and the handle as they are,
    whichever socket it comes from. From the current socket it leaves the
    transport not open; from any other socket the current transport stays as
    it was, so a socket left behind that closes late marks a live session
    as disconnected. *)
Theorem close_event_effect (ws : nat) (w : WebSocket.t) (s : Session) :
  sockets s !! ws = Some w ->
  WebSocket.readyState w <> CLOSED ->
  let s' := step (WsClose ws) s in
  isConnected s' = false /\
  isConnecting s' = false /\
  isWaitingForResponse s' = false /\
  error s' = error s /\
  messages s' = messages s /\
  wsRef s' = wsRef s /\
  readyState_of (Some ws) s' = Some CLOSED /\
  (wsRef s = Some ws -> transport_open s' = false) /\
  (wsRef s <> Some ws -> transport_open s' = transport_open s).
Proof.
  intros Hw Hr s'.
  assert (Hlt : (ws < length (sockets s))%nat) by (eapply lookup_lt_Some; eauto).
  assert (Hs' : s' = onclose (set_readyState ws CLOSED s)).
  { subst s'. cbn [step]. unfold readyState_of. rewrite Hw. cbn.
    now destruct (WebSocket.readyState w). }
  clearbody s'. subst s'. unfold set_readyState. rewrite Hw.
  destruct s as [ms c g wt e rf n socks]; cbn in *.
  repeat (split; [reflexivity|]).
  split; [now rewrite list_lookup_insert_eq by exact Hlt|].
  unfold transport_open, readyState_of; cbn. split.
  - intros ->. now rewrite list_lookup_insert_eq by exact Hlt.
  - intros Hother. destruct rf as [ws0|]; [|reflexivity].
    assert (ws <> ws0) by congruence. now rewrite list_lookup_insert_ne.
Qed.

Lemma close_event_effect_witness :
  isConnected remounted = true /\
  isConnected (step (WsClose 0%nat) remounted) = false /\
  transport_open (step (WsClose 0%nat) remounted) = true.
Proof.
  split; [reflexivity|].
  destruct (close_event_effect 0%nat (WebSocket.mk CLOSING [] demo_scenario) remounted)
    as (Hc & _ & _ & _ & _ & _ & _ & _ & Hother); [reflexivity|discriminate|].
  split; [exact Hc|]. rewrite Hother; [reflexivity|discriminate].
Defined.

(** *** Teardown *)

Lemma at_most_init_added_refl (w : WebSocket.t) : at_most_init_added w w.
Proof. split; [reflexivity|]. left. auto. Qed.

Lemma at_most_init_added_trans (w w1 w' : WebSocket.t) :
  at_most_init_added w w1 -> at_most_init_added w1 w' -> at_most_init_added w w'.
Proof.
  intros [Hsc1 H1] [Hsc2 H2]. split; [congruence|].
  destruct H1 as [[Hs1 Hr1]|(Hr & Hs1 & Hn1)], H2 as [[Hs2 Hr2]|(Hr2 & Hs2 & Hn2)].
  - left. split; [congruence|auto].
  - right. split; [auto|]. split; [congruence|exact Hn2].
  - right. split; [exact Hr|]. split; [congruence|]. intros Hc. now apply Hn1, Hr2.
  - contradiction.
Qed.

(** One call or event other than a [connect], with the handle null: the
    handle stays null, no socket is made, and at most one socket changes,
    by opening or by closing. *)
Lemma step_without_handle (e : Event) (s : Session) :
  wsRef s = None ->
  is_connect e = false ->
  wsRef (step e s) = None /\
  length (sockets (step e s)) = length (sockets s) /\
  forall ws w, sockets s !! ws = Some w ->
    exists w', sockets (step e s) !! ws = Some w' /\ at_most_init_added w w'.
Proof.
  intros Hnull Hnot.
  assert (Hsame : forall s', wsRef s' = None -> sockets s' = sockets s ->
            wsRef s' = None /\ length (sockets s') = length (sockets s) /\
            forall ws w, sockets s !! ws = Some w ->
              exists w', sockets s' !! ws = Some w' /\ at_most_init_added w w').
  { intros s' Hn Hs. split; [exact Hn|]. rewrite Hs. split; [reflexivity|].
    intros ws w Hw. exists w. split; [exact Hw|apply at_most_init_added_refl]. }
  assert (Hone : forall s' ws0 w0 w0',
            wsRef s' = None -> sockets s !! ws0 = Some w0 ->
            sockets s' = <[ws0 := w0']> (sockets s) -> at_most_init_added w0 w0' ->
            wsRef s' = None /\ length (sockets s') = length (sockets s) /\
            forall ws w, sockets s !! ws = Some w ->
              exists w', sockets s' !! ws = Some w' /\ at_most_init_added w w').
  { intros s' ws0 w0 w0' Hn Hw0 Hs Hrel. split; [exact Hn|]. rewrite Hs.
    split; [apply length_insert|]. intros ws w Hw.
    destruct (decide (ws0 = ws)) as [->|Hne].
    - exists w0'. assert (w0 = w) by congruence. subst w0. split; [|exact Hrel].
      apply list_lookup_insert_eq. eapply lookup_lt_Some; eauto.
    - exists w. split; [now rewrite list_lookup_insert_ne|apply at_most_init_added_refl]. }
  destruct e as [scenario|now text| | |ws|ws now data|ws|ws]; try discriminate;
    cbn [step].
  - unfold sendMessage. rewrite Hnull. apply Hsame; now destruct s.
  - unfold disconnect. rewrite Hnull. apply Hsame; now destruct s.
  - apply Hsame; now destruct s.
  - unfold readyState_of. destruct (sockets s !! ws) as [w|] eqn:Hw; cbn; [|now apply Hsame].
    destruct (WebSocket.readyState w) eqn:Hr; try (now apply Hsame).
    assert (Hlt : (ws < length (sockets s))%nat) by (eapply lookup_lt_Some; eauto).
    apply (Hone _ ws w (WebSocket.mk OPEN
                          (WebSocket.sent w ++ [InitRecord "doctor" (WebSocket.scenario w)])
                          (WebSocket.scenario w))); [| exact Hw | |].
    + unfold onopen, set_readyState. rewrite Hw. destruct s as [ms c g wt e rf n socks].
      cbn in *. rewrite list_lookup_insert_eq by exact Hlt. unfold ws_send. cbn.
      now rewrite list_lookup_insert_eq by exact Hlt.
    + unfold onopen, set_readyState. rewrite Hw. destruct s as [ms c g wt e rf n socks].
      cbn in *. rewrite list_lookup_insert_eq by exact Hlt. unfold ws_send. cbn.
      rewrite list_lookup_insert_eq by exact Hlt. cbn. now rewrite list_insert_insert_eq.
    + split; [reflexivity|]. right. cbn. split; [exact Hr|]. split; [reflexivity|discriminate].
  - destruct (readyState_of (Some ws) s) as [[]|]; try (now apply Hsame).
    unfold onmessage. destruct data as [[type text err]|]; [|now apply Hsame]. cbn.
    destruct (String.eqb type "message" && truthy_opt text); [apply Hsame; now destruct s|].
    destruct (String.eqb type "error"); [apply Hsame; now destruct s|].
    destruct (String.eqb type "end"); apply Hsame; now destruct s.
  - destruct (readyState_of (Some ws) s); apply Hsame; now destruct s.
  - unfold readyState_of. destruct (sockets s !! ws) as [w|] eqn:Hw; cbn; [|now apply Hsame].
    assert (Hclosed : at_most_init_added w (WebSocket.mk CLOSED (WebSocket.sent w)
                                                         (WebSocket.scenario w))).
    { split; [reflexivity|]. left. cbn. split; [reflexivity|discriminate]. }
    unfold set_readyState. rewrite Hw.
    assert (Hs1 : wsRef (onclose (set_sockets
                    (<[ws := WebSocket.mk CLOSED (WebSocket.sent w) (WebSocket.scenario w)]>
                       (sockets s)) s)) = None) by now destruct s.
    assert (Hs2 : sockets (onclose (set_sockets
                    (<[ws := WebSocket.mk CLOSED (WebSocket.sent w) (WebSocket.scenario w)]>
                       (sockets s)) s))
                  = <[ws := WebSocket.mk CLOSED (WebSocket.sent w) (WebSocket.scenario w)]>
                      (sockets s)) by now destruct s.
    destruct (WebSocket.readyState w); try (now apply Hsame);
      exact (Hone _ ws w _ Hs1 Hw Hs2 Hclosed).
Qed.

Lemma run_without_handle (es : list Event) (s : Session) :
  wsRef s = None ->
  forallb (fun e => negb (is_connect e)) es = true ->
  wsRef (run es s) = None /\
  length (sockets (run es s)) = length (sockets s) /\
  forall ws w, sockets s !! ws = Some w ->
    exists w', sockets (run es s) !! ws = Some w' /\ at_most_init_added w w'.
Proof.
  revert s. induction es as [|e es IH]; intros s Hnull Hes.
  - split; [exact Hnull|]. split; [reflexivity|]. intros ws w Hw.
    exists w. split; [exact Hw|apply at_most_init_added_refl].
  - cbn [forallb] in Hes. apply andb_true_iff in Hes as [He Hes].
    apply negb_true_iff in He. rewrite run_cons.
    destruct (step_without_handle e s Hnull He) as (Hnull1 & Hlen1 & Hall1).
    destruct (IH (step e s) Hnull1 Hes) as (Hnull' & Hlen' & Hall').
    split; [exact Hnull'|]. split; [congruence|]. intros ws w Hw.
    destruct (Hall1 ws w Hw) as (w1 & Hw1 & Hrel1).
    destruct (Hall' ws w1 Hw1) as (w' & Hw' & Hrel').
    exists w'. split; [exact Hw'|]. now apply (at_most_init_added_trans w w1 w').
Qed.

(** X9: after [disconnect] no turn is sent until the next [connect]. Through
    every run of calls and events with no [connect] in it the handle stays
    null and no socket is made; the frames of a socket stay as they were,
    but for the init record of a socket that was left connecting and opens
    late; a send only sets the error to "Not connected to Syrinx"; and a
    [connect], when it comes, passes its guard and starts a fresh session on
    a new socket. *)
Theorem after_disconnect (es : list Event) (now : Z) (text : string)
    (scenario : SyrinxScenario.t) (s : Session) :
  forallb (fun e => negb (is_connect e)) es = true ->
  let s' := run es (disconnect s) in
  wsRef s' = None /\
  length (sockets s') = length (sockets s) /\
  (forall ws w, sockets (disconnect s) !! ws = Some w ->
     exists w', sockets s' !! ws = Some w' /\
       WebSocket.scenario w' = WebSocket.scenario w /\
       (WebSocket.sent w' = WebSocket.sent w \/
        (WebSocket.readyState w = CONNECTING /\
         WebSocket.sent w'
           = WebSocket.sent w ++ [InitRecord "doctor" (WebSocket.scenario w)]))) /\
  sendMessage now text s' = Returned (setError (Some "Not connected to Syrinx") s') /\
  sockets (connect scenario s') = sockets s' ++ [WebSocket.mk CONNECTING [] scenario] /\
  wsRef (connect scenario s') = Some (length (sockets s)) /\
  messages (connect scenario s') = [] /\
  error (connect scenario s') = None.
Proof.
  intros Hes s'.
  assert (Hlen0 : length (sockets (disconnect s)) = length (sockets s)).
  { unfold disconnect. destruct (wsRef s) as [ws|]; [|now destruct s].
    unfold ws_close. destruct (sockets s !! ws) as [w|]; [|now destruct s].
    destruct (WebSocket.readyState w); destruct s; cbn; now rewrite ?length_insert. }
  destruct (run_without_handle es (disconnect s) (wsRef_disconnect s) Hes)
    as (Hnull & Hlen & Hall).
  fold s' in Hnull, Hlen, Hall.
  assert (Hclosed : transport_open s' = false)
    by (unfold transport_open; now rewrite Hnull).
  split; [exact Hnull|]. split; [congruence|]. split.
  { intros ws w Hw. destruct (Hall ws w Hw) as (w' & Hw' & Hsc & Hrel).
    exists w'. split; [exact Hw'|]. split; [exact Hsc|].
    destruct Hrel as [[Hs _]|(Hr & Hs & _)]; auto. }
  split.
  { unfold sendMessage. now rewrite Hnull. }
  unfold connect. rewrite Hclosed. rewrite <- Hlen0, <- Hlen.
  now destruct s'.
Qed.

Lemma after_disconnect_witness :
  sockets (run [WsOpen 0%nat; SendMessage 5 "Hello"] (disconnect connected_twice))
    = [WebSocket.mk OPEN [InitRecord "doctor" demo_scenario] demo_scenario;
       WebSocket.mk CLOSING [] demo_scenario] /\
  sendMessage 6 "Hello"
              (run [WsOpen 0%nat; SendMessage 5 "Hello"] (disconnect connected_twice))
    = Returned (setError (Some "Not connected to Syrinx")
                  (run [WsOpen 0%nat; SendMessage 5 "Hello"] (disconnect connected_twice))).
Proof.
  split; [reflexivity|].
  apply (after_disconnect [WsOpen 0%nat; SendMessage 5 "Hello"] 6 "Hello" demo_scenario
                          connected_twice).
  reflexivity.
Defined.

(** X10: the two cleanups of an unmounting modal commute: the hook's own
    (close the socket) and the modal's ([disconnect]) give the state of
    [disconnect] alone in either order, and after the hook's cleanup alone
    the transport is not open. *)
Theorem cleanups_commute (s : Session) :
  disconnect (unmount s) = disconnect s /\
  unmount (disconnect s) = disconnect s /\
  transport_open (unmount s) = false.
Proof.
  split; [|split].
  - unfold unmount, disconnect. destruct (wsRef s) as [ws|] eqn:Href; [|now rewrite Href].
    unfold ws_close. destruct (sockets s !! ws) as [w|] eqn:Hw.
    + assert (Hlt : (ws < length (sockets s))%nat) by (eapply lookup_lt_Some; eauto).
      destruct (WebSocket.readyState w) eqn:Hr; destruct s as [ms c g wt e rf n socks];
        cbn in *; subst rf; rewrite ?list_lookup_insert_eq by exact Hlt; cbn;
        rewrite ?Hw, ?Hr; reflexivity.
    + rewrite Href, Hw. reflexivity.
  - unfold unmount. now rewrite wsRef_disconnect.
  - unfold unmount, transport_open, readyState_of.
    destruct (wsRef s) as [ws|] eqn:Href; [|now rewrite Href].
    unfold ws_close. destruct (sockets s !! ws) as [w|] eqn:Hw.
    + assert (Hlt : (ws < length (sockets s))%nat) by (eapply lookup_lt_Some; eauto).
      destruct (WebSocket.readyState w) eqn:Hr; destruct s as [ms c g wt e rf n socks];
        cbn in *; subst rf; rewrite ?list_lookup_insert_eq by exact Hlt; cbn;
        rewrite ?Hw; cbn; rewrite ?Hr; reflexivity.
    + rewrite Href, Hw. reflexivity.
Qed.

(** *** Turns *)

(** X11: one exchange on an open transport. A send appends the doctor's
    entry, raises the waiting flag and hands the socket one turn record; the
    peer's reply, a message record with a non-empty text, appends the
    parent's entry under the next identifier and puts the waiting flag down.
    The error and the connected flag are not touched. *)
Theorem one_exchange
    (now1 now2 : Z) (text reply : string) (err : option string)
    (ws : nat) (w : WebSocket.t) (s : Session) :
  wsRef s = Some ws ->
  sockets s !! ws = Some w ->
  WebSocket.readyState w = OPEN ->
  reply <> "" ->
  let s1 := step (SendMessage now1 text) s in
  let s2 := step (WsMessage ws now2 (Some (SyrinxMessage.mk "message" (Some reply) err))) s1 in
  isWaitingForResponse s1 = true /\
  isWaitingForResponse s2 = false /\
  messages s2 = messages s ++
    [ChatMessage.mk (msg_id (messageIdRef s + 1)) doctor text now1;
     ChatMessage.mk (msg_id (messageIdRef s + 2)) parent reply now2] /\
  sockets s2 = <[ws := WebSocket.mk OPEN (WebSocket.sent w ++ [TurnRecord text])
                                    (WebSocket.scenario w)]> (sockets s) /\
  error s2 = error s /\
  isConnected s2 = isConnected s.
Proof.
  intros Href Hw Hr Hreply s1 s2.
  assert (Hlt : (ws < length (sockets s))%nat) by (eapply lookup_lt_Some; eauto).
  subst s2 s1. cbn [step]. rewrite (sendMessage_open now1 text s ws w Href Hw Hr).
  cbn [state_of]. unfold readyState_of. cbn [sockets].
  rewrite list_lookup_insert_eq by exact Hlt. cbn.
  apply truthy_nonempty in Hreply. rewrite Hreply. cbn.
  rewrite <- app_assoc. cbn.
  replace (messageIdRef s + 1 + 1) with (messageIdRef s + 2) by lia.
  repeat split.
Qed.

Lemma one_exchange_witness :
  messages (run [SendMessage 30 "Any fever?";
                 WsMessage 0%nat 40 (Some (SyrinxMessage.mk "message" (Some "Since last night") None))]
                after_end)
    = [ChatMessage.mk "msg-1" parent "Hello doctor" 10;
       ChatMessage.mk "msg-2" doctor "Any fever?" 30;
       ChatMessage.mk "msg-3" parent "Since last night" 40].
Proof.
  destruct (one_exchange 30 40 "Any fever?" "Since last night" None 0%nat
              (WebSocket.mk OPEN [InitRecord "doctor" demo_scenario] demo_scenario)
              after_end eq_refl eq_refl eq_refl)
    as (_ & _ & Hmsgs & _); [discriminate|].
  exact Hmsgs.
Defined.

(** X12: inbound records the hook does not act on. A payload that does not
    parse, a message record without a text or with an empty one, and a
    record of any type other than "message", "error" and "end" (such as
    "connected") leave the whole state as it is. *)
Theorem inbound_ignored (now : Z) (data : option SyrinxMessage.t) (s : Session) :
  data = None \/
  (exists d, data = Some d /\
     ((SyrinxMessage.type d = "message" /\
       (SyrinxMessage.text d = None \/ SyrinxMessage.text d = Some "")) \/
      (SyrinxMessage.type d <> "message" /\ SyrinxMessage.type d <> "error" /\
       SyrinxMessage.type d <> "end"))) ->
  onmessage now data s = s.
Proof.
  intros [->|([type text err] & -> & Hcase)]; [reflexivity|]. cbn in Hcase.
  unfold onmessage. cbn.
  destruct Hcase as [[-> Htext]|(Hm & He & Hd)].
  - now destruct Htext as [-> | ->].
  - apply String.eqb_neq in Hm, He, Hd. now rewrite Hm, He, Hd.
Qed.

Lemma inbound_ignored_witness :
  onmessage 10 (Some (SyrinxMessage.mk "connected" None None)) awaiting_first_reply
    = awaiting_first_reply /\
  onmessage 10 (Some (SyrinxMessage.mk "message" (Some "") None)) awaiting_first_reply
    = awaiting_first_reply.
Proof.
  split; apply inbound_ignored; right; eexists; (split; [reflexivity|]); cbn.
  - right. repeat split; discriminate.
  - left. auto.
Defined.

(** *** The modal *)

(** No call and no event puts the waiting flag down but a [disconnect], a
    transport error, a close, and an inbound message with a text or error
    record. *)
Lemma step_stays_waiting (e : Event) (s : Session) :
  isWaitingForResponse s = true ->
  clears_waiting e = false ->
  isWaitingForResponse (step e s) = true.
Proof.
  intros Hwait Hquiet.
  destruct e as [scenario|now text| | |ws|ws now data|ws|ws]; try discriminate;
    cbn [step].
  - unfold connect. destruct (transport_open s); now destruct s.
  - destruct (sendMessage_flags now text s) as (_ & _ & [H|H]); congruence.
  - now destruct s.
  - unfold readyState_of. destruct (sockets s !! ws) as [w|] eqn:Hw; cbn; [|assumption].
    destruct (WebSocket.readyState w); try assumption.
    assert (Hlt : (ws < length (sockets s))%nat) by (eapply lookup_lt_Some; eauto).
    unfold onopen, set_readyState. rewrite Hw. destruct s as [ms c g wt e rf n socks].
    cbn in *. rewrite list_lookup_insert_eq by exact Hlt. unfold ws_send. cbn.
    now rewrite list_lookup_insert_eq by exact Hlt.
  - destruct (readyState_of (Some ws) s) as [[]|]; try assumption.
    unfold onmessage. destruct data as [[type text err]|]; [|assumption].
    cbn in Hquiet |- *. apply orb_false_iff in Hquiet as [-> ->].
    destruct (String.eqb type "end"); now destruct s.
Qed.

(** While the session waits and nothing puts the waiting flag down, the
    submissions of a run count for nothing: the session is the one that the
    calls and events alone give, and it still waits. *)
Lemma modal_run_waiting
    (trim : string -> string) (acts : list ModalAction) (m : Modal) :
  isWaitingForResponse (session m) = true ->
  forallb (fun a => negb (may_clear_waiting a)) acts = true ->
  session (modal_run trim acts m) = run (events_of acts) (session m) /\
  isWaitingForResponse (session (modal_run trim acts m)) = true.
Proof.
  revert m. induction acts as [|a acts IH]; intros m Hwait Hacts; [auto|].
  cbn [forallb] in Hacts. apply andb_true_iff in Hacts as [Ha Hacts].
  apply negb_true_iff in Ha. rewrite modal_run_cons.
  destruct a as [e|now typed]; cbn [modal_step events_of].
  - rewrite run_cons.
    apply (IH (mkModal (step e (session m)) (inputValue m))); [|exact Hacts].
    now apply step_stays_waiting.
  - rewrite handleSubmit_blocked by (now left).
    apply (IH (mkModal (session m) typed)); assumption.
Qed.

(** X13: a submission that passes the modal's guards on an open transport
    sends the trimmed text as one turn, empties the input box and raises the
    waiting flag. From then on, through every run of submissions, calls and
    events in which nothing puts the waiting flag down (no reply and no
    error record from the peer, no transport error, no close and no
    [disconnect]), the session keeps waiting and every submission, whatever
    is typed, changes nothing: the session is what the calls and events
    alone make it. So a double submit sends one turn only. *)
Theorem submit_once
    (trim : string -> string) (now : Z) (m : Modal) (ws : nat) (w : WebSocket.t) :
  isConnected (session m) = true ->
  isWaitingForResponse (session m) = false ->
  trim (inputValue m) <> "" ->
  wsRef (session m) = Some ws ->
  sockets (session m) !! ws = Some w ->
  WebSocket.readyState w = OPEN ->
  let m1 := handleSubmit trim now m in
  inputValue m1 = "" /\
  isWaitingForResponse (session m1) = true /\
  messages (session m1) = messages (session m) ++
    [ChatMessage.mk (msg_id (messageIdRef (session m) + 1)) doctor
                    (trim (inputValue m)) now] /\
  sockets (session m1)
    = <[ws := WebSocket.mk OPEN (WebSocket.sent w ++ [TurnRecord (trim (inputValue m))])
                           (WebSocket.scenario w)]> (sockets (session m)) /\
  forall acts,
    forallb (fun a => negb (may_clear_waiting a)) acts = true ->
    session (modal_run trim acts m1) = run (events_of acts) (session m1) /\
    isWaitingForResponse (session (modal_run trim acts m1)) = true /\
    forall now' typed,
      handleSubmit trim now' (mkModal (session (modal_run trim acts m1)) typed)
        = mkModal (session (modal_run trim acts m1)) typed.
Proof.
  intros Hon Hidle Htyped Href Hw Hr m1.
  assert (Hm1 : m1 = mkModal (state_of (sendMessage now (trim (inputValue m)) (session m))) "").
  { subst m1. unfold handleSubmit. apply truthy_nonempty in Htyped.
    rewrite Htyped, Hon, Hidle. cbn.
    now rewrite (sendMessage_open now (trim (inputValue m)) (session m) ws w Href Hw Hr). }
  clearbody m1. subst m1.
  rewrite (sendMessage_open now (trim (inputValue m)) (session m) ws w Href Hw Hr).
  cbn [state_of session inputValue messages isWaitingForResponse sockets].
  repeat (split; [reflexivity|]).
  intros acts Hacts.
  match goal with
  | |- session (modal_run trim acts ?m1) = _ /\ _ =>
      destruct (modal_run_waiting trim acts m1 eq_refl Hacts) as [Hrun Hwait]
  end.
  split; [exact Hrun|]. split; [exact Hwait|].
  intros now' typed. apply handleSubmit_blocked. now left.
Qed.

Lemma submit_once_witness :
  let m1 := handleSubmit trim_ascii 30
              (mkModal (run [WsMessage 0%nat 10
                               (Some (SyrinxMessage.mk "message" (Some "Hello doctor") None))]
                            awaiting_first_reply) "  Any fever? ") in
  inputValue m1 = "" /\
  messages (session m1) = [ChatMessage.mk "msg-1" parent "Hello doctor" 10;
                           ChatMessage.mk "msg-2" doctor "Any fever?" 30] /\
  session (modal_run trim_ascii
             [Submits 31 "Any fever?";
              Happens (WsMessage 0%nat 32 (Some (SyrinxMessage.mk "connected" None None)));
              Happens ClearError;
              Submits 33 "Hello?"]
             m1)
    = session m1.
Proof.
  destruct (submit_once trim_ascii 30
              (mkModal (run [WsMessage 0%nat 10
                               (Some (SyrinxMessage.mk "message" (Some "Hello doctor") None))]
                            awaiting_first_reply) "  Any fever? ")
              0%nat
              (WebSocket.mk OPEN [InitRecord "doctor" demo_scenario] demo_scenario))
    as (Hin & _ & Hmsgs & _ & Hblocked); try reflexivity; [discriminate|].
  cbv zeta. split; [exact Hin|]. split; [exact Hmsgs|].
  exact (proj1 (Hblocked [Submits 31 "Any fever?";
                          Happens (WsMessage 0%nat 32
                                     (Some (SyrinxMessage.mk "connected" None None)));
                          Happens ClearError;
                          Submits 33 "Hello?"] eq_refl)).
Defined.

(** X14: a submission that passes the modal's guards while the transport of
    the handle is not open is not sent, yet the input box is emptied all
    the same: the typed text is dropped, and the session shows
    "Not connected to Syrinx". *)
Theorem rejected_submit_clears_input (trim : string -> string) (now : Z) (m : Modal) :
  isConnected (session m) = true ->
  isWaitingForResponse (session m) = false ->
  trim (inputValue m) <> "" ->
  transport_open (session m) = false ->
  handleSubmit trim now m
    = mkModal (setError (Some "Not connected to Syrinx") (session m)) "".
Proof.
  intros Hon Hidle Htyped Hclosed. unfold handleSubmit.
  apply truthy_nonempty in Htyped. rewrite Htyped, Hon, Hidle. cbn.
  unfold sendMessage. rewrite Hclosed. now destruct (wsRef (session m)).
Qed.

Lemma rejected_submit_clears_input_witness :
  handleSubmit trim_ascii 30 (mkModal greeted_on_old_socket "Any fever?")
    = mkModal (setError (Some "Not connected to Syrinx") greeted_on_old_socket) "".
Proof.
  apply (rejected_submit_clears_input trim_ascii 30
           (mkModal greeted_on_old_socket "Any fever?"));
    [reflexivity|reflexivity|discriminate|reflexivity].
Defined.

(** *** From the setup dialog to the first frame *)

(** X15: a role play starts only from a complaint that is not blank. With a
    blank complaint the setup dialog's submit leaves the page as it is and no
    modal is rendered. Otherwise the modal mounts, and when its transport
    opens the first and only frame on the wire is the init record with role
    "doctor" and the scenario built from the trimmed complaint and the
    chosen persona; the session is then connected and waiting for the
    peer's first turn, with an empty transcript. *)
Theorem role_play_start
    (trim : string -> string) (Date_getTime : string -> number) (now : Z)
    (pd : PatientDetail.t) (f : Setup) (p : Page) :
  rolePlayConfig p = None ->
  let p' := setup_handleSubmit trim f p in
  let scenario :=
    buildScenario Date_getTime now pd (trim (chiefComplaint f)) (parentPersona f) in
  (trim (chiefComplaint f) = "" ->
     p' = p /\ render_RolePlayModal Date_getTime now pd p' = None) /\
  (trim (chiefComplaint f) <> "" ->
     showRolePlaySetup p' = false /\
     exists m,
       render_RolePlayModal Date_getTime now pd p' = Some m /\
       inputValue m = "" /\
       sockets (session m) = [WebSocket.mk CONNECTING [] scenario] /\
       let s1 := step (WsOpen 0%nat) (session m) in
       sockets s1 = [WebSocket.mk OPEN [InitRecord "doctor" scenario] scenario] /\
       SyrinxScenario.chief_complaint scenario = trim (chiefComplaint f) /\
       ScenarioParent.style (SyrinxScenario.parent scenario)
         = persona_tag (parentPersona f) /\
       isConnected s1 = true /\
       isWaitingForResponse s1 = true /\
       isConnecting s1 = false /\
       messages s1 = []).
Proof.
  intros Hnone p' scenario. subst p'. unfold setup_handleSubmit. split.
  - intros Hblank. rewrite Hblank. cbn. split; [reflexivity|].
    unfold render_RolePlayModal. now rewrite Hnone.
  - intros Htyped. apply truthy_nonempty in Htyped. rewrite Htyped. cbn.
    split; [reflexivity|]. eexists. split; [reflexivity|]. repeat split.
Qed.

Lemma role_play_start_witness :
  render_RolePlayModal sample_getTime sample_now toddler
    (setup_handleSubmit trim_ascii (mkSetup "   " calm) (mkPage true None)) = None /\
  exists m,
    render_RolePlayModal sample_getTime sample_now toddler
      (setup_handleSubmit trim_ascii (mkSetup " cough " calm) (mkPage true None)) = Some m /\
    sockets (step (WsOpen 0%nat) (session m))
      = [WebSocket.mk OPEN
           [InitRecord "doctor" (buildScenario sample_getTime sample_now toddler "cough" calm)]
           (buildScenario sample_getTime sample_now toddler "cough" calm)].
Proof.
  split.
  - apply (proj1 (role_play_start trim_ascii sample_getTime sample_now toddler
                    (mkSetup "   " calm) (mkPage true None) eq_refl)).
    reflexivity.
  - destruct (proj2 (role_play_start trim_ascii sample_getTime sample_now toddler
                       (mkSetup " cough " calm) (mkPage true None) eq_refl))
      as (_ & m & Hm & _ & _ & Hopen & _); [discriminate|].
    exists m. split; [exact Hm|exact Hopen].
Defined.

(** ** Further properties of the scenario builder *)

(** X16: [PARENT_PERSONAS] lists each of the six personas once, in the order
    of the type, each with a label and a description that are not empty; so
    [getPersonaDescription] returns the description of the persona's own
    entry and never falls back to the empty string. *)
Theorem persona_descriptions (persona : ParentPersona) :
  PersonaOption.value <$> PARENT_PERSONAS
    = [anxious; calm; dismissive; demanding; confused; frustrated] /\
  exists p,
    p ∈ PARENT_PERSONAS /\
    PersonaOption.value p = persona /\
    getPersonaDescription persona = PersonaOption.description p /\
    PersonaOption.description p <> "" /\
    PersonaOption.label p <> "".
Proof.
  split; [reflexivity|].
  destruct persona;
    [exists (PersonaOption.mk anxious "Anxious First-Time Parent"
               "Worried, asks many questions, needs reassurance")
    |exists (PersonaOption.mk calm "Calm & Experienced"
               "Matter-of-fact, provides clear information")
    |exists (PersonaOption.mk dismissive "Dismissive"
               "Minimizes symptoms, may withhold information")
    |exists (PersonaOption.mk demanding "Demanding"
               "Wants immediate answers, may push for specific treatments")
    |exists (PersonaOption.mk confused "Confused"
               "Unclear about symptoms, gives inconsistent information")
    |exists (PersonaOption.mk frustrated "Frustrated with Healthcare"
               "Has had bad experiences, skeptical of recommendations")];
    (split; [unfold PARENT_PERSONAS; repeat constructor|]);
    repeat split; discriminate.
Qed.

(** X17: the clock and the date parser reach the age only. The name, the
    sex, the three rosters, the persona and the complaint of the descriptor
    are the same whatever the time of the call; and for a patient of one
    year or more the whole descriptor is. *)
Theorem clock_only_in_age
    (getTime1 getTime2 : string -> number) (now1 now2 : Z) (pd : PatientDetail.t)
    (chiefComplaint : string) (persona : ParentPersona) :
  let d1 := buildScenario getTime1 now1 pd chiefComplaint persona in
  let d2 := buildScenario getTime2 now2 pd chiefComplaint persona in
  ScenarioPatient.name (SyrinxScenario.patient d1)
    = ScenarioPatient.name (SyrinxScenario.patient d2) /\
  ScenarioPatient.sex (SyrinxScenario.patient d1)
    = ScenarioPatient.sex (SyrinxScenario.patient d2) /\
  ScenarioPatient.allergies (SyrinxScenario.patient d1)
    = ScenarioPatient.allergies (SyrinxScenario.patient d2) /\
  ScenarioPatient.medications (SyrinxScenario.patient d1)
    = ScenarioPatient.medications (SyrinxScenario.patient d2) /\
  ScenarioPatient.chronic_conditions (SyrinxScenario.patient d1)
    = ScenarioPatient.chronic_conditions (SyrinxScenario.patient d2) /\
  SyrinxScenario.parent d1 = SyrinxScenario.parent d2 /\
  SyrinxScenario.chief_complaint d1 = SyrinxScenario.chief_complaint d2 /\
  (1 <= Patient.age_years (PatientDetail.patient pd) -> d1 = d2).
Proof.
  cbn. repeat (split; [reflexivity|]).
  intros Hge. apply Z.ltb_ge in Hge. unfold buildScenario, ageString.
  now rewrite Hge.
Qed.

Lemma clock_only_in_age_witness :
  buildScenario sample_getTime sample_now toddler "cough" calm
    = buildScenario (fun _ => NaN) 0 toddler "cough" calm.
Proof.
  apply (clock_only_in_age sample_getTime (fun _ => NaN) sample_now 0 toddler "cough" calm).
  cbn. lia.
Defined.

(** X18: a medication is rendered with its dose exactly when both the dose
    quantity and the frequency are recorded and not empty: then it reads
    name, quantity with the unit (if any) attached, frequency; in every
    other case (also a quantity without a frequency) it is the bare name. *)
Theorem dose_needs_quantity_and_frequency (m : Medication.t) :
  (forall quantity freq,
     Medication.dose_quantity m = Some quantity -> quantity <> "" ->
     Medication.frequency m = Some freq -> freq <> "" ->
     render_medication m
       = Medication.display_name m +:+ " " +:+ quantity
           +:+ or_default (Medication.dose_unit m) "" +:+ " " +:+ freq /\
     render_medication m <> Medication.display_name m) /\
  (Medication.dose_quantity m = None \/ Medication.dose_quantity m = Some "" \/
   Medication.frequency m = None \/ Medication.frequency m = Some "" ->
   render_medication m = Medication.display_name m).
Proof.
  unfold render_medication. split.
  - intros quantity freq -> Hq -> Hf.
    apply truthy_nonempty in Hq, Hf. rewrite Hq, Hf. cbn. split; [reflexivity|].
    intros Heq. apply (f_equal String.length) in Heq.
    rewrite !append_length in Heq. cbn in Heq. lia.
  - intros [-> | [-> | [-> | ->]]]; cbn; try reflexivity.
    + now destruct (Medication.frequency m).
    + now destruct (Medication.dose_quantity m).
    + destruct (Medication.dose_quantity m) as [q|]; [|reflexivity].
      now rewrite andb_false_r.
Qed.

Lemma dose_needs_quantity_and_frequency_witness :
  render_medication
    (Medication.mk "m1" "Amoxicillin" "active" (Some "5") (Some "ml") (Some "twice daily") None)
    = "Amoxicillin 5ml twice daily" /\
  render_medication
    (Medication.mk "m3" "Cetirizine" "active" (Some "5") (Some "mg") None None)
    = "Cetirizine".
Proof.
  split.
  - assert (H5 : "5" <> "") by discriminate.
    assert (Hf : "twice daily" <> "") by discriminate.
    exact (proj1 (proj1 (dose_needs_quantity_and_frequency
                           (Medication.mk "m1" "Amoxicillin" "active" (Some "5") (Some "ml")
                                          (Some "twice daily") None))
                        "5" "twice daily" eq_refl H5 eq_refl Hf)).
  - exact (proj2 (dose_needs_quantity_and_frequency
                    (Medication.mk "m3" "Cetirizine" "active" (Some "5") (Some "mg") None None))
                 (or_intror (or_intror (or_introl eq_refl)))).
Defined.

(** ** The inbox *)

Lemma mark_read_unread (id : string) (l : list Message.t) :
  (length (unread (map (fun m => if String.eqb (Message.id m) id
                                 then with_is_read m else m) l))
   <= length (unread l))%nat.
Proof.
  unfold unread. induction l as [|m l IH]; [reflexivity|]. cbn [map List.filter].
  destruct (String.eqb (Message.id m) id); cbn [with_is_read Message.is_read negb].
  - destruct (negb (Message.is_read m)); cbn [length]; lia.
  - destruct (negb (Message.is_read m)); cbn [length]; lia.
Qed.

(** X19: selecting a message never reorders, adds or removes messages and
    changes no field but the read flag. When the message was unread and the
    request to the server succeeded, every message with its identifier is
    read afterwards, messages with another identifier are untouched, and
    the number of unread messages does not grow; when it was read already,
    or the request failed, the list is left as it was. The selection is set
    in every case. *)
Theorem select_marks_read (marked : bool) (msg : Message.t) (st : Inbox.t) :
  let st' := handleSelectMessage marked msg st in
  Inbox.selectedMessage st' = Some msg /\
  with_is_read <$> Inbox.messages st' = with_is_read <$> Inbox.messages st /\
  (length (unread (Inbox.messages st')) <= length (unread (Inbox.messages st)))%nat /\
  (Message.is_read msg = false -> marked = true ->
     Forall (fun m => Message.id m = Message.id msg -> Message.is_read m = true)
            (Inbox.messages st') /\
     forall i m, Inbox.messages st !! i = Some m -> Message.id m <> Message.id msg ->
                 Inbox.messages st' !! i = Some m) /\
  (Message.is_read msg = true \/ marked = false ->
     Inbox.messages st' = Inbox.messages st).
Proof.
  intros st'. subst st'. unfold handleSelectMessage.
  destruct st as [msgs sel]. cbn [Inbox.messages Inbox.selectedMessage].
  split; [now destruct (negb (Message.is_read msg)), marked|].
  split.
  { destruct (negb (Message.is_read msg)), marked; try reflexivity. cbn.
    induction msgs as [|m msgs IH]; [reflexivity|]. cbn. rewrite <- IH.
    now destruct (String.eqb (Message.id m) (Message.id msg)). }
  split.
  { destruct (negb (Message.is_read msg)), marked; try reflexivity. cbn.
    apply mark_read_unread. }
  split.
  - intros -> ->. cbn. split.
    + induction msgs as [|m msgs IH]; constructor; [|exact IH].
      destruct (String.eqb (Message.id m) (Message.id msg)) eqn:Hid; [reflexivity|].
      apply String.eqb_neq in Hid. congruence.
    + intros i m Hi Hne. rewrite list_lookup_fmap, Hi. cbn.
      apply String.eqb_neq in Hne. now rewrite Hne.
  - intros [-> | ->]; [reflexivity|]. now destruct (negb (Message.is_read msg)).
Qed.

Lemma select_marks_read_witness :
  Inbox.messages (handleSelectMessage true refill_request
                    (Inbox.mk [lab_question; refill_request] None))
    = [lab_question; with_is_read refill_request] /\
  Inbox.messages (handleSelectMessage false refill_request
                    (Inbox.mk [lab_question; refill_request] None))
    = [lab_question; refill_request].
Proof.
  split.
  - reflexivity.
  - apply (select_marks_read false refill_request (Inbox.mk [lab_question; refill_request] None)).
    right. reflexivity.
Defined.

(** ** The import page *)

(** [endsWith] holds of the strings that are a prefix followed by the suffix. *)
Lemma endsWith_spec (s suffix : string) :
  endsWith s suffix = true <-> exists prefix, s = prefix +:+ suffix.
Proof.
  split.
  - induction s as [|c s IH]; cbn [endsWith]; intros H; apply orb_true_iff in H.
    + destruct H as [H|H]; [|discriminate]. apply String.eqb_eq in H. subst suffix.
      now exists "".
    + destruct H as [H|H].
      * apply String.eqb_eq in H. subst suffix. now exists "".
      * destruct (IH H) as (prefix & ->). now exists (String c prefix).
  - intros (prefix & ->). induction prefix as [|c prefix IH].
    + rewrite append_nil. destruct suffix; cbn [endsWith]; now rewrite String.eqb_refl.
    + rewrite append_cons. cbn [endsWith]. rewrite IH. apply orb_true_r.
Qed.

Lemma with_details_filename (result : ImportResult.t) (filename format : string) :
  exists d, ImportResult.details (with_details result filename format) = Some d /\
            d !! "filename" = Some filename.
Proof.
  eexists. split; [reflexivity|].
  rewrite lookup_insert_ne by discriminate. apply lookup_insert_eq.
Qed.

(** What [import_file] pushes for a file, by its name. *)
Lemma import_file_entry
    (importCCDA importFhirBundle importOreadFile : string -> string -> thrown + ImportResult.t)
    (JSON_resourceType : string -> thrown + option string) (file : File.t) :
  ((forall prefix, File.name file <> prefix +:+ ".json") ->
   (forall prefix, File.name file <> prefix +:+ ".xml") ->
   import_file importCCDA importFhirBundle importOreadFile JSON_resourceType file
     = ImportResult.mk false None 0 None
                       [File.name file +:+ ": Must be a JSON or XML file"]) /\
  ((exists prefix, File.name file = prefix +:+ ".json") \/
   (exists prefix, File.name file = prefix +:+ ".xml") ->
   exists d,
     ImportResult.details
       (import_file importCCDA importFhirBundle importOreadFile JSON_resourceType file)
       = Some d /\
     d !! "filename" = Some (File.name file)).
Proof.
  unfold import_file. split.
  - intros Hjson Hxml.
    destruct (endsWith (File.name file) ".json") eqn:Ej.
    { apply endsWith_spec in Ej as (prefix & Hp). now destruct (Hjson prefix). }
    destruct (endsWith (File.name file) ".xml") eqn:Ex.
    { apply endsWith_spec in Ex as (prefix & Hp). now destruct (Hxml prefix). }
    reflexivity.
  - intros Hsupported.
    assert (Hguard : negb (endsWith (File.name file) ".json")
                     && negb (endsWith (File.name file) ".xml") = false).
    { destruct Hsupported as [H|H]; apply endsWith_spec in H; rewrite H; cbn;
        [reflexivity|apply andb_false_r]. }
    rewrite Hguard. unfold try_import.
    destruct (File.text file) as [err|text];
      [eexists; split; [reflexivity|apply lookup_singleton_eq]|].
    destruct (endsWith (File.name file) ".xml").
    + destruct (importCCDA _ _) as [err|result];
        [eexists; split; [reflexivity|apply lookup_singleton_eq]|].
      apply with_details_filename.
    + destruct (JSON_resourceType text) as [err|resourceType];
        [eexists; split; [reflexivity|apply lookup_singleton_eq]|].
      destruct (if match resourceType with Some t => String.eqb t "Bundle" | None => false end
                then importFhirBundle (File.name file) text
                else importOreadFile (File.name file) text) as [err|result];
        [eexists; split; [reflexivity|apply lookup_singleton_eq]|].
      apply with_details_filename.
Qed.

(** X20: an import never stops half way: whatever the files are and
    whatever reading, parsing or the server throws, [handleFiles] ends with
    the importing flag down and the page error cleared, and has put exactly
    one result per file, in the order of the files, in front of the earlier
    results. A file whose name ends in neither ".json" nor ".xml" gets the
    failure entry naming it; every other file gets an entry, success or
    failure, whose details carry its file name. *)
Theorem import_one_result_per_file
    (importCCDA importFhirBundle importOreadFile : string -> string -> thrown + ImportResult.t)
    (JSON_resourceType : string -> thrown + option string)
    (files : list File.t) (st : ImportPage.t) :
  let st' :=
    handleFiles importCCDA importFhirBundle importOreadFile JSON_resourceType files st in
  ImportPage.importing st' = false /\
  ImportPage.error st' = None /\
  ImportPage.isDragging st' = ImportPage.isDragging st /\
  exists new,
    ImportPage.results st' = new ++ ImportPage.results st /\
    length new = length files /\
    forall i file, files !! i = Some file ->
      exists r, new !! i = Some r /\
        ((forall prefix, File.name file <> prefix +:+ ".json") ->
         (forall prefix, File.name file <> prefix +:+ ".xml") ->
         r = ImportResult.mk false None 0 None
                             [File.name file +:+ ": Must be a JSON or XML file"]) /\
        ((exists prefix, File.name file = prefix +:+ ".json") \/
         (exists prefix, File.name file = prefix +:+ ".xml") ->
         exists d, ImportResult.details r = Some d /\
                   d !! "filename" = Some (File.name file)).
Proof.
  cbn. repeat (split; [reflexivity|]).
  exists (import_file importCCDA importFhirBundle importOreadFile JSON_resourceType
            <$> files).
  split; [reflexivity|]. split; [apply length_fmap|].
  intros i file Hi. eexists. split.
  - now rewrite list_lookup_fmap, Hi.
  - apply import_file_entry.
Qed.

(** X21: the extension of the name alone decides where a file goes. A file
    named neither ".json" nor ".xml" reaches no importer, and a ".xml" file
    reaches the C-CDA importer only and is never read as JSON: their
    results are the same whatever the other requests and the JSON reader
    would answer. With no file selected, [handleFileSelect] does nothing. *)
Theorem import_routing_by_extension
    (ccda ccda' fhir fhir' oread oread' : string -> string -> thrown + ImportResult.t)
    (json json' : string -> thrown + option string) (file : File.t) :
  ((forall prefix, File.name file <> prefix +:+ ".json") ->
   (forall prefix, File.name file <> prefix +:+ ".xml") ->
   import_file ccda fhir oread json file = import_file ccda' fhir' oread' json' file) /\
  ((exists prefix, File.name file = prefix +:+ ".xml") ->
   import_file ccda fhir oread json file = import_file ccda fhir' oread' json' file) /\
  (forall st, handleFileSelect ccda fhir oread json [] st = st).
Proof.
  split; [|split].
  - intros Hjson Hxml.
    rewrite (proj1 (import_file_entry ccda fhir oread json file) Hjson Hxml).
    now rewrite (proj1 (import_file_entry ccda' fhir' oread' json' file) Hjson Hxml).
  - intros Hxml. apply endsWith_spec in Hxml.
    unfold import_file, try_import. rewrite Hxml. reflexivity.
  - reflexivity.
Qed.

Lemma not_a_suffix (s suffix : string) :
  endsWith s suffix = false -> forall prefix, s <> prefix +:+ suffix.
Proof.
  intros Hno prefix Heq.
  assert (Hyes : endsWith s suffix = true) by (apply endsWith_spec; eauto).
  congruence.
Qed.

Lemma import_routing_by_extension_witness :
  import_file accept_all accept_all accept_all always_bundle
              (File.mk "notes.txt" (inr "hello"))
    = import_file (fun _ _ => inl None) (fun _ _ => inl None) (fun _ _ => inl None)
                  (fun _ => inl None) (File.mk "notes.txt" (inr "hello")) /\
  import_file accept_all accept_all accept_all always_bundle
              (File.mk "visit.xml" (inr "<ClinicalDocument/>"))
    = import_file accept_all (fun _ _ => inl None) (fun _ _ => inl None)
                  (fun _ => inl None) (File.mk "visit.xml" (inr "<ClinicalDocument/>")).
Proof.
  split.
  - apply (proj1 (import_routing_by_extension
                    accept_all (fun _ _ => inl None) accept_all (fun _ _ => inl None)
                    accept_all (fun _ _ => inl None) always_bundle (fun _ => inl None)
                    (File.mk "notes.txt" (inr "hello"))));
      apply not_a_suffix; reflexivity.
  - apply (proj1 (proj2 (import_routing_by_extension
                    accept_all accept_all accept_all (fun _ _ => inl None)
                    accept_all (fun _ _ => inl None) always_bundle (fun _ => inl None)
                    (File.mk "visit.xml" (inr "<ClinicalDocument/>"))))).
    now exists "visit".
Defined.

Lemma import_one_result_per_file_witness :
  exists new,
    ImportPage.results
      (handleFiles accept_all accept_all accept_all always_bundle
         [File.mk "notes.txt" (inr "hello"); File.mk "visit.xml" (inl (Some "unreadable"))]
         (ImportPage.mk false false [] (Some "earlier")))
      = new ++ [] /\
    new !! 0%nat
      = Some (ImportResult.mk false None 0 None ["notes.txt: Must be a JSON or XML file"]).
Proof.
  destruct (import_one_result_per_file accept_all accept_all accept_all always_bundle
              [File.mk "notes.txt" (inr "hello"); File.mk "visit.xml" (inl (Some "unreadable"))]
              (ImportPage.mk false false [] (Some "earlier")))
    as (_ & _ & _ & new & Hnew & _ & Hall).
  exists new. split; [exact Hnew|].
  destruct (Hall 0%nat (File.mk "notes.txt" (inr "hello")) eq_refl) as (r & Hr & Hbad & _).
  rewrite Hr. f_equal. apply Hbad; apply not_a_suffix; reflexivity.
Defined.

(** ** Exceptions *)

(** X22: the hook never meets the [InvalidStateError] of [ws.send]: a send
    returns in every state, because the guard lets it reach the socket only
    when it is open, and [onopen] returns whenever the transport fires
    [open] on a socket, which is open by then. *)
Theorem send_never_throws (now : Z) (text : string) (s : Session) :
  (exists s', sendMessage now text s = Returned s') /\
  (forall ws, readyState_of (Some ws) s = Some CONNECTING ->
     exists s', onopen ws (set_readyState ws OPEN s) = Returned s' /\
                step (WsOpen ws) s = s').
Proof.
  split; [apply sendMessage_returns|].
  intros ws Hr. cbn [step]. rewrite Hr. unfold readyState_of in Hr.
  destruct (sockets s !! ws) as [w|] eqn:Hw; [|discriminate].
  destruct (onopen_returns ws s w Hw) as (s' & Hs').
  exists s'. split; [exact Hs'|]. now rewrite Hs'.
Qed.

Lemma send_never_throws_witness :
  exists s',
    onopen 0%nat (set_readyState 0%nat OPEN (connect demo_scenario initial)) = Returned s' /\
    step (WsOpen 0%nat) (connect demo_scenario initial) = s'.
Proof.
  apply (proj2 (send_never_throws 0 "" (connect demo_scenario initial)) 0%nat).
  reflexivity.
Defined.
